(** * TemplateFitter: the negative log-likelihood cost functions

    A shallow embedding of [templatefitter/nll.py]: the abstract cost
    function, [SimplePoissonNegativeLogLikelihood] and
    [AdvancedPoissonNegativeLogLikelihood], together with the small part
    of numpy and scipy the module calls ([@], slicing, broadcasting,
    [np.log], [np.sum], [np.concatenate], [scipy.linalg.block_diag]).

    The code is written once, over an abstract scalar type, and read at
    two scalar types:
    - [R]: float64 idealised as the real numbers (no rounding, no
      overflow, no special values); the statements in which the
      logarithm plays no part are made there: shapes and shape errors,
      the cached matrix, the Gaussian term, the equality of two
      evaluations;
    - [npfloat]: the reals extended with [+inf], [-inf] and [nan], with
      the IEEE 754 rules numpy follows for them, a finite float being an
      ideal real (no rounding, no overflow to an infinity); every
      statement about a value of the Poisson term, finite or not, is
      made there.

    Python exceptions are values of [result]; a function that can raise
    returns [result]. *)

From Stdlib Require Import String Ascii DecimalString Decimal DecimalNat.
From Stdlib Require Import Reals Lra Lia Arith Bool List.
Import ListNotations.

Set Implicit Arguments.

(* ================================================================== *)
(** * Exceptions *)

Inductive exn : Type :=
| ValueError      (* numpy / scipy shape errors *)
| AttributeError. (* a missing attribute of the template collection *)

Inductive result (A : Type) : Type :=
| Ok (a : A)
| Raise (e : exn).

Arguments Ok {A} a.
Arguments Raise {A} e.

Definition bind {A B : Type} (c : result A) (k : A -> result B) : result B :=
  match c with
  | Ok a => k a
  | Raise e => Raise e
  end.

Notation "x <- c ;; k" := (bind c (fun x => k))
  (at level 61, c at next level, right associativity).

Definition raises {A : Type} (c : result A) : Prop :=
  exists e, c = Raise e.

(* ================================================================== *)
(** * Scalars

    The arithmetic [nll.py] uses on array entries. *)

Class Scalar (A : Type) : Type := {
  s_zero : A;               (* 0.0 *)
  s_half : A;               (* the literal 0.5 *)
  s_add : A -> A -> A;
  s_sub : A -> A -> A;
  s_mul : A -> A -> A;
  s_log : A -> A            (* np.log on one entry *)
}.

(** float64 idealised as [R].  [ln] is Rocq's total logarithm, which
    agrees with [np.log] on the positive reals only; every statement
    about a value of the Poisson term is therefore made at [npfloat]
    below, and the statements made at [R] are those in which the
    logarithm plays no part (shapes, errors, the Gaussian term, the
    equality of two evaluations). *)
#[export] Instance R_scalar : Scalar R := {
  s_zero := 0%R;
  s_half := 0.5%R;
  s_add := Rplus;
  s_sub := Rminus;
  s_mul := Rmult;
  s_log := ln
}.

(** float64 with its special values: a finite value (an ideal real), the
    two infinities, and not-a-number. *)
Inductive npfloat : Type :=
| Fin (r : R)
| PInf
| NInf
| NaN.

Definition np_neg (a : npfloat) : npfloat :=
  match a with
  | Fin r => Fin (- r)
  | PInf => NInf
  | NInf => PInf
  | NaN => NaN
  end.

Definition np_add (a b : npfloat) : npfloat :=
  match a, b with
  | NaN, _ | _, NaN => NaN
  | Fin x, Fin y => Fin (x + y)
  | PInf, NInf | NInf, PInf => NaN
  | PInf, _ | _, PInf => PInf
  | NInf, _ | _, NInf => NInf
  end.

Definition np_sub (a b : npfloat) : npfloat := np_add a (np_neg b).

(** An infinity times a finite [r]: the sign rule, and [nan] at zero. *)
Definition np_scale_inf (r : R) (pos : bool) : npfloat :=
  if Rlt_dec 0 r then (if pos then PInf else NInf)
  else if Rlt_dec r 0 then (if pos then NInf else PInf)
  else NaN.

Definition np_mul (a b : npfloat) : npfloat :=
  match a, b with
  | NaN, _ | _, NaN => NaN
  | Fin x, Fin y => Fin (x * y)
  | Fin x, PInf | PInf, Fin x => np_scale_inf x true
  | Fin x, NInf | NInf, Fin x => np_scale_inf x false
  | PInf, PInf | NInf, NInf => PInf
  | PInf, NInf | NInf, PInf => NInf
  end.

(** [np.log]: [-inf] at zero, [nan] below zero (a warning, never an
    exception), [+inf] at [+inf]. *)
Definition np_log (a : npfloat) : npfloat :=
  match a with
  | Fin r => if Rlt_dec 0 r then Fin (ln r)
             else if Rlt_dec r 0 then NaN
             else NInf
  | PInf => PInf
  | NInf => NaN
  | NaN => NaN
  end.

#[export] Instance npfloat_scalar : Scalar npfloat := {
  s_zero := Fin 0;
  s_half := Fin 0.5;
  s_add := np_add;
  s_sub := np_sub;
  s_mul := np_mul;
  s_log := np_log
}.

(* ================================================================== *)
(** * The numpy operations of [nll.py] *)

Module Np.
Section Arrays.
Context {A : Type} `{Scalar A}.

(** A 2-D array: its shape and its rows. *)
Record ndarray2 : Type := {
  nrows : nat;
  ncols : nat;
  rows : list (list A)
}.

(** The rows agree with the shape (every numpy array does). *)
Definition wf2 (m : ndarray2) : Prop :=
  length (rows m) = nrows m /\
  Forall (fun r => length r = ncols m) (rows m).

Definition entry (m : ndarray2) (i j : nat) : A :=
  nth j (nth i (rows m) []) s_zero.

(** [m[:, j]] *)
Definition column (m : ndarray2) (j : nat) : list A :=
  map (fun r => nth j r s_zero) (rows m).

Fixpoint zip_with (f : A -> A -> A) (u v : list A) : list A :=
  match u, v with
  | a :: u', b :: v' => f a b :: zip_with f u' v'
  | _, _ => []
  end.

Definition zeros (n : nat) : list A := repeat s_zero n.

(** [np.sum] of a 1-D array. *)
Definition sum (u : list A) : A := fold_left s_add u s_zero.

(** [np.log] of a 1-D array. *)
Definition log (u : list A) : list A := map s_log u.

(** A binary ufunc on two 1-D arrays, with numpy's broadcasting: equal
    lengths, or one operand of length 1 stretched; anything else is a
    [ValueError]. *)
Definition broadcast (f : A -> A -> A) (u v : list A) : result (list A) :=
  if length u =? length v then Ok (zip_with f u v)
  else match u, v with
       | [a], _ => Ok (map (f a) v)
       | _, [b] => Ok (map (fun x => f x b) u)
       | _, _ => Raise ValueError
       end.

(** [u @ v] on two 1-D arrays: the inner product; [ValueError] when
    the lengths differ. *)
Definition dot (u v : list A) : result A :=
  if length u =? length v then Ok (sum (zip_with s_mul u v))
  else Raise ValueError.

(** [v @ m] with [v] 1-D and [m] 2-D: entry [j] of the result is the
    inner product of [v] with column [j]; [ValueError] unless
    [len(v)] is the number of rows. *)
Definition vecmat (v : list A) (m : ndarray2) : result (list A) :=
  if length v =? nrows m
  then Ok (map (fun j => sum (zip_with s_mul v (column m j)))
               (seq 0 (ncols m)))
  else Raise ValueError.

(** An array as [scipy.linalg.block_diag] may receive it. *)
Inductive ndarray : Type :=
| Arr0 (a : A)              (* 0-D *)
| Arr1 (v : list A)         (* 1-D *)
| Arr2 (m : ndarray2)       (* 2-D *)
| ArrN (extra_dims : nat).  (* ndim = 3 + extra_dims *)

(** [np.atleast_2d], on the arrays with at most two dimensions. *)
Definition atleast_2d (a : ndarray) : option ndarray2 :=
  match a with
  | Arr0 x => Some {| nrows := 1; ncols := 1; rows := [[x]] |}
  | Arr1 v => Some {| nrows := 1; ncols := length v; rows := [v] |}
  | Arr2 m => Some m
  | ArrN _ => None
  end.
End Arrays.
Arguments ndarray2 A : clear implicits.
Arguments ndarray A : clear implicits.
End Np.

(* ================================================================== *)
(** * [scipy.linalg.block_diag] *)

Module Scipy.
Section BlockDiag.
Context {A : Type} `{Scalar A}.

Fixpoint all_2d (arrs : list (Np.ndarray A)) : option (list (Np.ndarray2 A)) :=
  match arrs with
  | [] => Some []
  | a :: arrs' =>
      match Np.atleast_2d a, all_2d arrs' with
      | Some m, Some ms => Some (m :: ms)
      | _, _ => None
      end
  end.

Definition total_rows (ms : list (Np.ndarray2 A)) : nat :=
  fold_right (fun m n => Np.nrows m + n)%nat 0%nat ms.

Definition total_cols (ms : list (Np.ndarray2 A)) : nat :=
  fold_right (fun m n => Np.ncols m + n)%nat 0%nat ms.

(** The loop [out[r:r+rr, c:c+cc] = arrs[i]; r += rr; c += cc] over a
    zero matrix with [width] columns: the rows of block [i] land at
    column offset [c], zeros on both sides. *)
Fixpoint place_blocks (c width : nat) (ms : list (Np.ndarray2 A))
  : list (list A) :=
  match ms with
  | [] => []
  | m :: ms' =>
      map (fun r => Np.zeros c ++ r ++ Np.zeros (width - c - Np.ncols m))
          (Np.rows m)
      ++ place_blocks (c + Np.ncols m) width ms'
  end.

(** [out = np.zeros(np.sum(shapes, axis=0))] filled by the loop. *)
Definition assemble (ms : list (Np.ndarray2 A)) : Np.ndarray2 A :=
  {| Np.nrows := total_rows ms;
     Np.ncols := total_cols ms;
     Np.rows := place_blocks 0 (total_cols ms) ms |}.

(** [block_diag], called on the unpacked sequence [arrs].  No argument
    at all stands for one empty 1-D array, of shape [(1, 0)] after
    [atleast_2d]; no check is made on arguments of at most two
    dimensions, the blocks may be rectangular and of different sizes.  An
    argument with more than two dimensions is a [ValueError] in the
    scipy releases the repository was written against; later releases
    read the leading dimensions as a batch, which this model does not
    follow, and no statement below is about such an argument. *)
Definition block_diag (arrs : list (Np.ndarray A)) : result (Np.ndarray2 A) :=
  let arrs := match arrs with [] => [Np.Arr1 []] | _ => arrs end in
  match all_2d arrs with
  | None => Raise ValueError
  | Some ms => Ok (assemble ms)
  end.
End BlockDiag.
End Scipy.

(* ================================================================== *)
(** * The collaborators of the cost functions *)

Section Collaborators.
Context {A : Type} `{Scalar A}.

(** The data histogram: [hdata.bin_counts]. *)
Record Histogram : Type := {
  bin_counts : list A
}.

(** The template collection, as far as [nll.py] reads it.  [yields] is
    the state behind the [yield_values] attribute. *)
Record CompositeTemplate : Type := {
  template_ids : list string;
  yields : option (list A);
  nuiss_param_values : list A;
  num_bins : nat;
  num_templates : nat;
  inv_corr_mats : list (Np.ndarray A);
  bin_fractions : option (list A) -> result (Np.ndarray2 A)
}.

(** Modelled from the spec: the [yield_values] attribute of the
    template collection, whose class is not among the sources.  The
    spec says reading the start vector fails while the collection is
    not fully initialised, its yields missing; so the attribute raises
    then, and is the yields otherwise. *)
Definition yield_values (t : CompositeTemplate) : result (list A) :=
  match yields t with
  | Some y => Ok y
  | None => Raise AttributeError
  end.
End Collaborators.
Arguments Histogram A : clear implicits.
Arguments CompositeTemplate A : clear implicits.

(* ================================================================== *)
(** * [nll.py] *)

(** [str(i)] for a non-negative integer. *)
Definition str (i : nat) : string := NilEmpty.string_of_uint (Nat.to_uint i).

Module AbstractTemplateCostFunction.
Section Class.
Context {A : Type} `{Scalar A}.

Record t : Type := {
  _data : Histogram A;
  _templates : CompositeTemplate A
}.

Definition __init__ (hdata : Histogram A) (templates : CompositeTemplate A) : t :=
  {| _data := hdata; _templates := templates |}.

Definition x0 (self : t) : result (list A) :=
  yield_values (_templates self).

(** [np.sum(exp_evts_per_bin - self._data.bin_counts * np.log(exp_evts_per_bin))],
    the expression both subclasses evaluate. *)
Definition poisson_sum (self : t) (exp_evts_per_bin : list A) : result A :=
  weighted <- Np.broadcast s_mul (bin_counts (_data self))
                           (Np.log exp_evts_per_bin) ;;
  terms <- Np.broadcast s_sub exp_evts_per_bin weighted ;;
  Ok (Np.sum terms).
End Class.
Arguments t A : clear implicits.
End AbstractTemplateCostFunction.

Module SimplePoissonNegativeLogLikelihood.
Import AbstractTemplateCostFunction.
Section Class.
Context {A : Type} `{Scalar A}.

Definition __init__ (hdata : Histogram A) (templates : CompositeTemplate A)
  : AbstractTemplateCostFunction.t A :=
  AbstractTemplateCostFunction.__init__ hdata templates.

Definition x0 (self : AbstractTemplateCostFunction.t A) : result (list A) :=
  AbstractTemplateCostFunction.x0 self.

Definition param_names (self : AbstractTemplateCostFunction.t A) : list string :=
  map (fun template => "yield_" ++ template)%string
      (template_ids (_templates self)).

Definition __call__ (self : AbstractTemplateCostFunction.t A) (x : list A)
  : result A :=
  let poi := x in
  fractions <- bin_fractions (_templates self) None ;;
  exp_evts_per_bin <- Np.vecmat poi fractions ;;
  poisson_term <- poisson_sum self exp_evts_per_bin ;;
  Ok poisson_term.
End Class.
End SimplePoissonNegativeLogLikelihood.

Module AdvancedPoissonNegativeLogLikelihood.
Import AbstractTemplateCostFunction.
Section Class.
Context {A : Type} `{Scalar A}.

Record t : Type := {
  base : AbstractTemplateCostFunction.t A;
  _block_diag_inv_corr_mats : Np.ndarray2 A
}.

Definition __init__ (hdata : Histogram A) (templates : CompositeTemplate A)
  : result t :=
  let super := AbstractTemplateCostFunction.__init__ hdata templates in
  cache <- Scipy.block_diag (inv_corr_mats (_templates super)) ;;
  Ok {| base := super; _block_diag_inv_corr_mats := cache |}.

Definition x0 (self : t) : result (list A) :=
  initial_yields <- yield_values (_templates (base self)) ;;
  let inital_nuissance_params := nuiss_param_values (_templates (base self)) in
  Ok (initial_yields ++ inital_nuissance_params).

Definition param_names (self : t) : list string :=
  let yields :=
    map (fun template_id => "yield_" ++ template_id)%string
        (template_ids (_templates (base self))) in
  let nuissance_params :=
    map (fun template_name =>
           map (fun i => "theta_" ++ template_name ++ "_" ++ str i)%string
               (seq 0 (num_bins (_templates (base self)))))
        (template_ids (_templates (base self))) in
  yields ++ concat nuissance_params.

(** Lines 184 to 192 of [__call__]: the split and the Poisson term. *)
Definition poisson_term (self : t) (x : list A) : result A :=
  let poi := firstn (num_templates (_templates (base self))) x in
  let nuiss_params := skipn (num_templates (_templates (base self))) x in
  fractions <- bin_fractions (_templates (base self)) (Some nuiss_params) ;;
  exp_evts_per_bin <- Np.vecmat poi fractions ;;
  poisson_sum (base self) exp_evts_per_bin.

(** Line 194 of [__call__]: the Gaussian term. *)
Definition gauss_term (self : t) (x : list A) : result A :=
  let nuiss_params := skipn (num_templates (_templates (base self))) x in
  left <- Np.vecmat nuiss_params (_block_diag_inv_corr_mats self) ;;
  quad <- Np.dot left nuiss_params ;;
  Ok (s_mul s_half quad).

Definition __call__ (self : t) (x : list A) : result A :=
  poisson <- poisson_term self x ;;
  gauss <- gauss_term self x ;;
  Ok (s_add poisson gauss).
End Class.
Arguments t A : clear implicits.
End AdvancedPoissonNegativeLogLikelihood.

Module Simple := SimplePoissonNegativeLogLikelihood.
Module Advanced := AdvancedPoissonNegativeLogLikelihood.
Module Base := AbstractTemplateCostFunction.

(* ================================================================== *)
(** * [plotter/histogram_plot_base.py]

    The accessors of [HistogramPlot] that read the common binning, and
    the axis label built from them.  The binning and the variable are
    objects of classes defined elsewhere; they appear as the records of
    what this file reads from them.  Bin widths are idealised as reals.
    [draw_legend] and [_add_component] only forward to matplotlib and to
    the histogram container and are not part of the model. *)

Module HistogramPlot.

Inductive error : Type :=
| AttributeError   (* an attribute of [None] *)
| AssertionError   (* a failed [assert] *)
| IndexError       (* [t[0]] on an empty tuple *)
| ValueError.      (* [min] of an empty sequence *)

Inductive outcome (A : Type) : Type :=
| Returns (a : A)
| Raises (e : error).

Arguments Returns {A} a.
Arguments Raises {A} e.

Definition and_then {A B : Type} (c : outcome A) (k : A -> outcome B)
  : outcome B :=
  match c with
  | Returns a => k a
  | Raises e => Raises e
  end.

Notation "x <~ c ;; k" := (and_then c (fun x => k))
  (at level 61, c at next level, right associativity).

(** [Binning], one tuple entry per dimension. *)
Record Binning : Type := {
  bin_edges : list (list R);
  bin_widths : list (list R);
  bin_mids : list (list R);
  num_bins : list nat
}.

(** [HistVariable]; [unit] may be [None]. *)
Record HistVariable : Type := {
  df_label : string;
  unit : option string;
  use_log_scale : bool
}.

(** [HistogramContainer], as read here. *)
Record HistogramContainer : Type := {
  common_binning : option Binning;
  number_of_histograms : nat
}.

Record t : Type := {
  _variable : HistVariable;
  _histograms : HistogramContainer
}.

Definition binning (self : t) : option Binning :=
  common_binning (_histograms self).

(** [self.binning.<attr>]: an [AttributeError] on [None]. *)
Definition binning_attr {A : Type} (self : t) (attr : Binning -> A) : outcome A :=
  match binning self with
  | Some b => Returns (attr b)
  | None => Raises AttributeError
  end.

Definition assert (c : bool) : outcome Datatypes.unit :=
  if c then Returns tt else Raises AssertionError.

(** [t[0]] *)
Definition first {A : Type} (l : list A) : outcome A :=
  match l with
  | a :: _ => Returns a
  | [] => Raises IndexError
  end.

(** The body shared by the four accessors:
    [assert len(self.binning.attr) == 1; return self.binning.attr[0]]. *)
Definition sole_dimension {A : Type} (self : t) (attr : Binning -> list A)
  : outcome A :=
  checked <~ binning_attr self attr ;;
  _ <~ assert (length checked =? 1)%nat ;;
  read <~ binning_attr self attr ;;
  first read.

Definition prop_bin_edges (self : t) : outcome (list R) :=
  sole_dimension self bin_edges.

Definition prop_bin_widths (self : t) : outcome (list R) :=
  sole_dimension self bin_widths.

Definition prop_bin_mids (self : t) : outcome (list R) :=
  sole_dimension self bin_mids.

Definition number_of_bins (self : t) : outcome nat :=
  sole_dimension self num_bins.

(** Python's [min] on a sequence: the first least item; [ValueError] on
    an empty one. *)
Definition py_min (l : list R) : outcome R :=
  match l with
  | [] => Raises ValueError
  | a :: rest =>
      Returns (fold_left (fun least w => if Rlt_dec w least then w else least)
                         rest a)
  end.

Definition minimal_bin_width (self : t) : outcome R :=
  widths <~ prop_bin_widths self ;;
  py_min widths.

Definition variable (self : t) : HistVariable := _variable self.

(** Truth value of [self._variable.unit]: [None] and the empty string
    are false. *)
Definition truthy (u : option string) : bool :=
  match u with
  | Some (String _ _) => true
  | _ => false
  end.

Definition unit_text (u : option string) : string :=
  match u with
  | Some s => s
  | None => EmptyString
  end.

(** The common binning has one dimension, with bin widths [ws]. *)
Definition has_bin_widths (self : t) (ws : list R) : Prop :=
  exists b, binning self = Some b /\ bin_widths b = [ws].

Section Label.
(** The format specification [.2g] applied to a float. *)
Variable format_2g : R -> string.

Definition _get_y_label (self : t) (normed : bool) (evts_or_cands : string)
  : outcome string :=
  if normed then Returns "Normalized in arb. units"%string
  else if use_log_scale (_variable self)
  then Returns (evts_or_cands ++ " / Bin")%string
  else
    b <~ minimal_bin_width self ;;
    let v := if truthy (unit (_variable self))
             then (" " ++ unit_text (unit (_variable self)))%string
             else EmptyString in
    Returns (evts_or_cands ++ " / (" ++ format_2g b ++ v ++ ")")%string.
End Label.

End HistogramPlot.

(* ================================================================== *)
(** * The formulas of the specification

    Written from the words of the specification, with indexed sums, to
    be compared with what the code computes. *)

Open Scope R_scope.

(** [big_sum n f] is the sum of [f i] for [i < n]. *)
Fixpoint big_sum (n : nat) (f : nat -> R) : R :=
  match n with
  | O => 0
  | S k => big_sum k f + f k
  end.

(** [expected[i] = sum_k poi[k] * bin_fractions[k][i]]. *)
Definition expected_spec (poi : list R) (fractions : Np.ndarray2 R) (i : nat) : R :=
  big_sum (length poi) (fun k => nth k poi 0 * Np.entry fractions k i).

(** [sum_i (expected[i] - observed[i] * log(expected[i]))]. *)
Definition poisson_spec (n_bins : nat) (expected : nat -> R) (observed : list R) : R :=
  big_sum n_bins (fun i => expected i - nth i observed 0 * ln (expected i)).

(** [theta^T . M . theta], entry by entry. *)
Definition quadratic_form (theta : list R) (M : Np.ndarray2 R) : R :=
  big_sum (length theta) (fun i =>
    big_sum (length theta) (fun j =>
      nth i theta 0 * Np.entry M i j * nth j theta 0)).

(** The same form on a vector given by its entries [f 0 .. f (N-1)]. *)
Definition quad_fun (N : nat) (f : nat -> R) (M : Np.ndarray2 R) : R :=
  big_sum N (fun i => big_sum N (fun j => f i * Np.entry M i j * f j)).

(** Entry [k] of [M . v] for [v] given by its entries. *)
Definition row_dot (N : nat) (M : Np.ndarray2 R) (f : nat -> R) (k : nat) : R :=
  big_sum N (fun j => Np.entry M k j * f j).

(** The unit vector [e_k]. *)
Definition unit_at (k i : nat) : R := if (k =? i)%nat then 1 else 0.

(** [0.5 * nuiss_params^T . BlockDiagInvCorr . nuiss_params]. *)
Definition gauss_spec (nuiss_params : list R) (M : Np.ndarray2 R) : R :=
  0.5 * quadratic_form nuiss_params M.

Definition empty_matrix : Np.ndarray2 R :=
  {| Np.nrows := 0; Np.ncols := 0; Np.rows := [] |}.

(** The block-diagonal matrix of [mats], each [n_bins] by [n_bins]:
    entry [(i, j)] lies in block [i / n_bins] when [j] is in the same
    block, and is zero otherwise. *)
Definition block_diag_spec (n_bins : nat) (mats : list (Np.ndarray2 R))
  (i j : nat) : R :=
  if (i / n_bins =? j / n_bins)%nat
  then Np.entry (nth (i / n_bins) mats empty_matrix)
                (i mod n_bins) (j mod n_bins)
  else 0.

(** The nuisance parameters of template [t]: [theta[t*n_bins : (t+1)*n_bins]]. *)
Definition template_slice (n_bins : nat) (theta : list R) (t : nat) : list R :=
  firstn n_bins (skipn (t * n_bins) theta).

(** [M . v]: the inner product of every row with [v]. *)
Definition matvec (M : Np.ndarray2 R) (v : list R) : list R :=
  map (fun r => big_sum (length v) (fun j => nth j r 0 * nth j v 0)) (Np.rows M).

(** [v] lies in the kernel of [M]. *)
Definition in_kernel (M : Np.ndarray2 R) (v : list R) : Prop :=
  Forall (fun y => y = 0) (matvec M v).

Definition symmetric (M : Np.ndarray2 R) : Prop :=
  forall i j, Np.entry M i j = Np.entry M j i.

(** Positive semi-definite: the quadratic form is non-negative on every
    vector of the matrix's size. *)
Definition positive_semidefinite (M : Np.ndarray2 R) : Prop :=
  forall v, length v = Np.nrows M -> 0 <= quadratic_form v M.

(* ================================================================== *)
(** * The data model of the specification, as hypotheses *)

(** [bin_fractions] returns [n_templates] rows of [n_bins] fractions
    whenever it returns. *)
Definition fractions_shape {A} `{Scalar A} (T : CompositeTemplate A) : Prop :=
  forall arg F, bin_fractions T arg = Ok F ->
    Np.wf2 F /\ Np.nrows F = num_templates T /\ Np.ncols F = num_bins T.

(** [inv_corr_mats] is [n_templates] square matrices of size [n_bins]. *)
Definition inv_corr_shape {A} `{Scalar A} (T : CompositeTemplate A)
  (mats : list (Np.ndarray2 A)) : Prop :=
  inv_corr_mats T = map Np.Arr2 mats /\
  length mats = num_templates T /\
  Forall (fun m => Np.wf2 m /\ Np.nrows m = num_bins T /\ Np.ncols m = num_bins T)
         mats.

(** The start values and names have the sizes of the data model. *)
Definition start_values_shape {A} `{Scalar A} (T : CompositeTemplate A)
  (ys : list A) : Prop :=
  yields T = Some ys /\
  length ys = num_templates T /\
  length (template_ids T) = num_templates T /\
  length (nuiss_param_values T) = (num_templates T * num_bins T)%nat.

(* ================================================================== *)
(** * A two-template, three-bin configuration

    The configuration of the specification's worked example: nominal
    fractions [[0.5,0.3,0.2],[0.2,0.3,0.5]] and yields [100, 50]. *)

Definition identity3 : Np.ndarray2 R :=
  {| Np.nrows := 3; Np.ncols := 3;
     Np.rows := [[1; 0; 0]; [0; 1; 0]; [0; 0; 1]] |}.

Definition example_fractions : Np.ndarray2 R :=
  {| Np.nrows := 2; Np.ncols := 3;
     Np.rows := [[0.5; 0.3; 0.2]; [0.2; 0.3; 0.5]] |}.

Definition example_templates : CompositeTemplate R :=
  {| template_ids := ["sig"; "bkg"]%string;
     yields := Some [100; 50];
     nuiss_param_values := [0; 0; 0; 0; 0; 0];
     num_bins := 3;
     num_templates := 2;
     inv_corr_mats := [Np.Arr2 identity3; Np.Arr2 identity3];
     bin_fractions := fun _ => Ok example_fractions |}.

Definition example_data (o0 o1 o2 : R) : Histogram R :=
  {| bin_counts := [o0; o1; o2] |}.

(** The same collection with a single 1-by-2 matrix for [inv_corr_mats]:
    neither two matrices nor square nor of size three. *)
Definition misshapen_templates : CompositeTemplate R :=
  {| template_ids := template_ids example_templates;
     yields := yields example_templates;
     nuiss_param_values := nuiss_param_values example_templates;
     num_bins := 3;
     num_templates := 2;
     inv_corr_mats :=
       [Np.Arr2 {| Np.nrows := 1; Np.ncols := 2; Np.rows := [[1; 2]] |}];
     bin_fractions := bin_fractions example_templates |}.

(** What [AdvancedPoissonNegativeLogLikelihood(hdata, templates)] builds
    on this configuration with [bin_counts = [60, 45, 45]]. *)
Definition example_advanced : Advanced.t R :=
  {| Advanced.base := Base.__init__ (example_data 60 45 45) example_templates;
     Advanced._block_diag_inv_corr_mats := Scipy.assemble [identity3; identity3] |}.

(* ================================================================== *)
(** * Finite arrays as float arrays, and a configuration with empty bins *)

(** A real matrix read as a matrix of finite floats. *)
Definition fin_matrix (M : Np.ndarray2 R) : Np.ndarray2 npfloat :=
  {| Np.nrows := Np.nrows M;
     Np.ncols := Np.ncols M;
     Np.rows := map (map Fin) (Np.rows M) |}.

(** The term of one bin, [expected - observed * log(expected)], on
    finite [expected] and [observed]. *)
Definition poisson_bin_term (expected observed : R) : npfloat :=
  np_sub (Fin expected) (np_mul (Fin observed) (np_log (Fin expected))).

(** The terms of the bins [0 .. n_bins-1]. *)
Definition bin_terms (expected : nat -> R) (observed : list R) (n_bins : nat)
  : list npfloat :=
  map (fun i => poisson_bin_term (expected i) (nth i observed 0)) (seq 0 n_bins).

(** One template whose whole yield falls in the last of three bins. *)
Definition gap_fractions : Np.ndarray2 R :=
  {| Np.nrows := 1; Np.ncols := 3; Np.rows := [[0; 0; 1]] |}.

Definition gap_templates : CompositeTemplate npfloat :=
  {| template_ids := ["sig"]%string;
     yields := Some [Fin 10];
     nuiss_param_values := [Fin 0; Fin 0; Fin 0];
     num_bins := 3;
     num_templates := 1;
     inv_corr_mats := [Np.Arr2 (fin_matrix identity3)];
     bin_fractions := fun _ => Ok (fin_matrix gap_fractions) |}.

Definition gap_data (o0 o1 o2 : R) : Histogram npfloat :=
  {| bin_counts := [Fin o0; Fin o1; Fin o2] |}.

(** The two-template configuration read with float entries. *)
Definition float_example_templates : CompositeTemplate npfloat :=
  {| template_ids := ["sig"; "bkg"]%string;
     yields := Some [Fin 100; Fin 50];
     nuiss_param_values := map Fin [0; 0; 0; 0; 0; 0];
     num_bins := 3;
     num_templates := 2;
     inv_corr_mats := map Np.Arr2 (map fin_matrix [identity3; identity3]);
     bin_fractions := fun _ => Ok (fin_matrix example_fractions) |}.

(** The identity matrix of size [b]: uncorrelated bin uncertainties. *)
Definition identity_matrix (b : nat) : Np.ndarray2 R :=
  {| Np.nrows := b; Np.ncols := b;
     Np.rows := map (fun i => map (unit_at i) (seq 0 b)) (seq 0 b) |}.

(** A stand-in for the [.2g] formatting, enough to show a label. *)
Definition fixed_format (w : R) : string := "0.25"%string.

(** A plot whose histograms share three bins of widths 0.5, 0.25, 1. *)
Definition example_plot : HistogramPlot.t :=
  {| HistogramPlot._variable :=
       {| HistogramPlot.df_label := "mass"%string;
          HistogramPlot.unit := Some "GeV"%string;
          HistogramPlot.use_log_scale := false |};
     HistogramPlot._histograms :=
       {| HistogramPlot.common_binning :=
            Some {| HistogramPlot.bin_edges := [[0; 0.5; 0.75; 1.75]];
                    HistogramPlot.bin_widths := [[0.5; 0.25; 1]];
                    HistogramPlot.bin_mids := [[0.25; 0.625; 1.25]];
                    HistogramPlot.num_bins := [3%nat] |};
          HistogramPlot.number_of_histograms := 1 |} |}.

(** The entries of an array of finite floats. *)
Fixpoint finite_values (l : list npfloat) : option (list R) :=
  match l with
  | [] => Some []
  | Fin r :: l' =>
      match finite_values l' with
      | Some rs => Some (r :: rs)
      | None => None
      end
  | _ :: _ => None
  end.

(** Fractions that follow the nuisance parameters: bin [i] of template
    [k] is its nominal fraction times [1 + 0.1 * theta[3k+i]]. *)
Definition adjusted_fractions (theta : list R) : Np.ndarray2 R :=
  {| Np.nrows := 2; Np.ncols := 3;
     Np.rows :=
       [[0.5 * (1 + 0.1 * nth 0 theta 0);
         0.3 * (1 + 0.1 * nth 1 theta 0);
         0.2 * (1 + 0.1 * nth 2 theta 0)];
        [0.2 * (1 + 0.1 * nth 3 theta 0);
         0.3 * (1 + 0.1 * nth 4 theta 0);
         0.5 * (1 + 0.1 * nth 5 theta 0)]] |}.

(** The two-template configuration with fractions that answer to the
    nuisance parameters handed to [bin_fractions]. *)
Definition responsive_templates : CompositeTemplate npfloat :=
  {| template_ids := ["sig"; "bkg"]%string;
     yields := Some (map Fin [100; 50]);
     nuiss_param_values := map Fin [1; 0; 0; 0; 2; 0];
     num_bins := 3;
     num_templates := 2;
     inv_corr_mats := map Np.Arr2 (map fin_matrix [identity3; identity3]);
     bin_fractions := fun nuiss_params =>
       match nuiss_params with
       | None => Ok (fin_matrix example_fractions)
       | Some theta =>
           match finite_values theta with
           | Some values => Ok (fin_matrix (adjusted_fractions values))
           | None => Raise ValueError
           end
       end |}.

(* ================================================================== *)
(** * Sums and array operations over the reals *)

Lemma big_sum_ext (n : nat) (f g : nat -> R) :
  (forall i, (i < n)%nat -> f i = g i) -> big_sum n f = big_sum n g.
Proof.
  induction n as [|n IH]; intros E; simpl; [reflexivity|].
  rewrite IH by (intros; apply E; lia).
  rewrite E by lia. reflexivity.
Qed.

Lemma big_sum_shift (n : nat) (f : nat -> R) :
  big_sum (S n) f = f O + big_sum n (fun i => f (S i)).
Proof.
  induction n as [|n IH].
  - simpl. lra.
  - change (big_sum (S (S n)) f) with (big_sum (S n) f + f (S n)).
    rewrite IH. simpl. lra.
Qed.

Lemma big_sum_zero (n : nat) (f : nat -> R) :
  (forall i, (i < n)%nat -> f i = 0) -> big_sum n f = 0.
Proof.
  induction n as [|n IH]; intros E; simpl; [reflexivity|].
  rewrite IH by (intros; apply E; lia). rewrite E by lia. lra.
Qed.

Lemma big_sum_plus (n : nat) (f g : nat -> R) :
  big_sum n (fun i => f i + g i) = big_sum n f + big_sum n g.
Proof. induction n as [|n IH]; simpl; [lra|rewrite IH; lra]. Qed.

Lemma big_sum_scal (n : nat) (c : R) (f : nat -> R) :
  big_sum n (fun i => c * f i) = c * big_sum n f.
Proof. induction n as [|n IH]; simpl; [lra|rewrite IH; lra]. Qed.

Lemma big_sum_nonneg (n : nat) (f : nat -> R) :
  (forall i, (i < n)%nat -> 0 <= f i) -> 0 <= big_sum n f.
Proof.
  induction n as [|n IH]; intros E; simpl; [lra|].
  assert (0 <= big_sum n f) by (apply IH; intros; apply E; lia).
  assert (0 <= f n) by (apply E; lia). lra.
Qed.

Lemma big_sum_app (n m : nat) (f : nat -> R) :
  big_sum (n + m) f = big_sum n f + big_sum m (fun i => f (n + i)%nat).
Proof.
  induction m as [|m IH].
  - rewrite Nat.add_0_r. simpl. lra.
  - rewrite Nat.add_succ_r. simpl. rewrite IH. lra.
Qed.

Lemma big_sum_swap (n m : nat) (f : nat -> nat -> R) :
  big_sum n (fun i => big_sum m (fun j => f i j)) =
  big_sum m (fun j => big_sum n (fun i => f i j)).
Proof.
  induction n as [|n IH]; simpl.
  - symmetry. apply big_sum_zero. reflexivity.
  - rewrite IH. rewrite <- big_sum_plus. reflexivity.
Qed.

Lemma fold_left_Rplus (l : list R) (a : R) :
  fold_left Rplus l a = a + big_sum (length l) (fun i => nth i l 0).
Proof.
  revert a. induction l as [|x l IH]; intros a.
  - simpl. lra.
  - cbn [fold_left length]. rewrite IH, big_sum_shift. simpl. lra.
Qed.

Lemma np_sum_big_sum (l : list R) :
  Np.sum l = big_sum (length l) (fun i => nth i l 0).
Proof. unfold Np.sum. simpl. rewrite fold_left_Rplus. lra. Qed.

Lemma zip_with_length {A : Type} (f : A -> A -> A) (u v : list A) :
  length (Np.zip_with f u v) = Nat.min (length u) (length v).
Proof.
  revert v. induction u as [|a u IH]; intros [|b v]; simpl; auto.
Qed.

Lemma zip_with_nth_gen {A : Type} (f : A -> A -> A) (u v : list A)
  (d du dv : A) (i : nat) :
  (i < length u)%nat -> (i < length v)%nat ->
  nth i (Np.zip_with f u v) d = f (nth i u du) (nth i v dv).
Proof.
  revert v i. induction u as [|a u IH]; intros [|b v] [|i] Hu Hv;
    simpl in *; try lia; auto.
  apply IH; lia.
Qed.

Lemma zip_with_nth (f : R -> R -> R) (u v : list R) (i : nat) :
  (i < length u)%nat -> (i < length v)%nat ->
  nth i (Np.zip_with f u v) 0 = f (nth i u 0) (nth i v 0).
Proof.
  revert v i. induction u as [|a u IH]; intros [|b v] [|i] Hu Hv;
    simpl in *; try lia; auto.
  apply IH; lia.
Qed.

Ltac lengths :=
  repeat rewrite ?zip_with_length, ?length_map, ?length_seq, ?length_app,
                 ?length_firstn, ?length_skipn, ?repeat_length;
  lia.

Lemma column_length (m : Np.ndarray2 R) (j : nat) :
  length (Np.column m j) = length (Np.rows m).
Proof. unfold Np.column. apply length_map. Qed.

Lemma nth_map_default {B : Type} (f : B -> R) (l : list B) (d : B) (k : nat) :
  f d = 0 -> nth k (map f l) 0 = f (nth k l d).
Proof.
  intros Hd. revert k. induction l as [|b l IH]; intros [|k]; simpl; auto.
Qed.

Lemma column_nth (m : Np.ndarray2 R) (j k : nat) :
  nth k (Np.column m j) 0 = Np.entry m k j.
Proof.
  unfold Np.column, Np.entry.
  apply (nth_map_default (fun r => nth j r s_zero)).
  destruct j; reflexivity.
Qed.

(** The inner product of the code, as an indexed sum. *)
Lemma sum_zip_mul (u v : list R) :
  length u = length v ->
  Np.sum (Np.zip_with s_mul u v) =
  big_sum (length u) (fun k => nth k u 0 * nth k v 0).
Proof.
  intros E. rewrite np_sum_big_sum, zip_with_length, <- E, Nat.min_id.
  apply big_sum_ext. intros i Hi. rewrite zip_with_nth by lia. reflexivity.
Qed.

(** One entry of [v @ m] is the sum of the specification. *)
Lemma vecmat_entry (v : list R) (m : Np.ndarray2 R) (j : nat) :
  Np.wf2 m -> length v = Np.nrows m ->
  Np.sum (Np.zip_with s_mul v (Np.column m j)) = expected_spec v m j.
Proof.
  intros [Hr _] E. unfold expected_spec.
  rewrite sum_zip_mul by (rewrite column_length; lia).
  apply big_sum_ext. intros k _. rewrite column_nth. reflexivity.
Qed.

(** [v @ m] succeeds on matching shapes, with those entries. *)
Lemma vecmat_ok (v : list R) (m : Np.ndarray2 R) :
  Np.wf2 m -> length v = Np.nrows m ->
  Np.vecmat v m = Ok (map (expected_spec v m) (seq 0 (Np.ncols m))).
Proof.
  intros Hwf E. unfold Np.vecmat.
  rewrite (proj2 (Nat.eqb_eq _ _) E). f_equal.
  apply map_ext. intros j. apply vecmat_entry; assumption.
Qed.

Lemma vecmat_raises (v : list R) (m : Np.ndarray2 R) :
  length v <> Np.nrows m -> Np.vecmat v m = Raise ValueError.
Proof.
  intros E. unfold Np.vecmat.
  rewrite (proj2 (Nat.eqb_neq _ _) E). reflexivity.
Qed.

Lemma map_seq_nth (f : nat -> R) (n i : nat) :
  (i < n)%nat -> nth i (map f (seq 0 n)) 0 = f i.
Proof.
  intros Hi.
  rewrite nth_indep with (d' := f O) by (rewrite length_map, length_seq; lia).
  rewrite map_nth, seq_nth by lia. reflexivity.
Qed.

Lemma broadcast_same {A : Type} (f : A -> A -> A) (u v : list A) :
  length u = length v -> Np.broadcast f u v = Ok (Np.zip_with f u v).
Proof.
  intros E. unfold Np.broadcast.
  rewrite (proj2 (Nat.eqb_eq _ _) E). reflexivity.
Qed.



(* ================================================================== *)
(** * The quadratic form and the block-diagonal matrix *)

(** [(theta @ M) @ theta], as the code evaluates it, is the quadratic
    form of the specification when [M] is square of [theta]'s size. *)
Lemma quad_code_spec (theta : list R) (M : Np.ndarray2 R) :
  Np.wf2 M -> Np.nrows M = length theta -> Np.ncols M = length theta ->
  (left <- Np.vecmat theta M ;; Np.dot left theta) = Ok (quadratic_form theta M).
Proof.
  intros Hwf Hr Hc.
  rewrite vecmat_ok by (auto; lia). cbn [bind].
  unfold Np.dot.
  replace (length (map _ _) =? length theta)%nat with true
    by (symmetry; apply Nat.eqb_eq; lengths).
  f_equal. rewrite sum_zip_mul by lengths.
  replace (length (map _ _)) with (length theta) by lengths.
  unfold quadratic_form. rewrite big_sum_swap.
  apply big_sum_ext. intros j Hj.
  rewrite map_seq_nth by lia. unfold expected_spec.
  rewrite Rmult_comm, <- big_sum_scal.
  apply big_sum_ext. intros i _. lra.
Qed.

Lemma vecmat_dot_raises (theta : list R) (M : Np.ndarray2 R) :
  Np.nrows M <> length theta \/ Np.ncols M <> length theta ->
  (left <- Np.vecmat theta M ;; Np.dot left theta) = Raise ValueError.
Proof.
  intros Hs. unfold Np.vecmat.
  destruct (Nat.eqb_spec (length theta) (Np.nrows M)) as [E|E]; [|reflexivity].
  cbn [bind]. unfold Np.dot.
  destruct (Nat.eqb_spec (length (map (fun j => Np.sum (Np.zip_with s_mul theta (Np.column M j)))
                                 (seq 0 (Np.ncols M)))) (length theta)) as [E'|E'];
    [|reflexivity].
  exfalso. revert E'. rewrite length_map, length_seq. intros E'.
  destruct Hs; congruence.
Qed.

Lemma all_2d_matrices (ms : list (Np.ndarray2 R)) :
  Scipy.all_2d (map Np.Arr2 ms) = Some ms.
Proof. induction ms as [|m ms IH]; simpl; [|rewrite IH]; reflexivity. Qed.

(** On 2-D arguments [block_diag] never raises, whatever the shapes. *)
Lemma block_diag_matrices (ms : list (Np.ndarray2 R)) :
  ms <> [] ->
  Scipy.block_diag (map Np.Arr2 ms) =
  Ok (Scipy.assemble ms).
Proof.
  intros Hne. unfold Scipy.block_diag.
  destruct ms as [|m ms]; [congruence|].
  cbn [map]. change (Np.Arr2 m :: map Np.Arr2 ms) with (map Np.Arr2 (m :: ms)).
  rewrite all_2d_matrices. reflexivity.
Qed.

Lemma place_blocks_length (c w : nat) (ms : list (Np.ndarray2 R)) :
  Forall (fun m => Np.wf2 m) ms ->
  length (Scipy.place_blocks c w ms) = Scipy.total_rows ms.
Proof.
  revert c. induction ms as [|m ms IH]; intros c Hwf; simpl; [reflexivity|].
  inversion Hwf as [|? ? [Hr _] Hrest]; subst.
  rewrite length_app, length_map, IH by assumption. lia.
Qed.

Lemma place_blocks_width (c w : nat) (ms : list (Np.ndarray2 R)) :
  Forall (fun m => Np.wf2 m) ms ->
  (c + Scipy.total_cols ms <= w)%nat ->
  Forall (fun r => length r = w) (Scipy.place_blocks c w ms).
Proof.
  revert c. induction ms as [|m ms IH]; intros c Hwf Hw; simpl; [constructor|].
  inversion Hwf as [|? ? [_ Hc] Hrest]; subst. simpl in Hw.
  apply Forall_app. split.
  - apply Forall_map. eapply Forall_impl; [|exact Hc].
    intros r Hr. cbv beta in *. unfold Np.zeros.
    rewrite !length_app, !repeat_length, Hr. lia.
  - apply IH; [assumption|lia].
Qed.

Lemma block_diag_wf (ms : list (Np.ndarray2 R)) :
  Forall (fun m => Np.wf2 m) ms ->
  Np.wf2 (Scipy.assemble ms).
Proof.
  intros Hwf. unfold Scipy.assemble. split; cbn [Np.rows Np.nrows Np.ncols].
  - apply place_blocks_length, Hwf.
  - apply place_blocks_width; [exact Hwf|lia].
Qed.

Lemma uniform_totals (b : nat) (ms : list (Np.ndarray2 R)) :
  Forall (fun m => Np.wf2 m /\ Np.nrows m = b /\ Np.ncols m = b) ms ->
  Scipy.total_rows ms = (length ms * b)%nat /\
  Scipy.total_cols ms = (length ms * b)%nat.
Proof.
  induction 1 as [|m ms (_ & Hr & Hc) _ [IHr IHc]]; simpl; [auto|].
  rewrite IHr, IHc, Hr, Hc. auto.
Qed.

Lemma uniform_wf (b : nat) (ms : list (Np.ndarray2 R)) :
  Forall (fun m => Np.wf2 m /\ Np.nrows m = b /\ Np.ncols m = b) ms ->
  Forall (fun m => Np.wf2 m) ms.
Proof. intros Hu. eapply Forall_impl; [|exact Hu]. intros m Hm. apply Hm. Qed.

Lemma nth_zeros (n j : nat) : nth j (Np.zeros n) 0 = 0.
Proof.
  unfold Np.zeros. revert j. induction n as [|n IH]; intros [|j]; simpl; auto.
Qed.

Lemma div_block (b k r : nat) : (r < b)%nat -> ((k * b + r) / b = k)%nat.
Proof.
  intros Hr. symmetry. apply (Nat.div_unique _ _ _ r); [exact Hr|lia].
Qed.

Lemma mod_block (b k r : nat) : (r < b)%nat -> ((k * b + r) mod b = r)%nat.
Proof.
  intros Hr. symmetry. apply (Nat.mod_unique _ _ k r); [exact Hr|lia].
Qed.

Lemma nth_map_in_range {B C : Type} (f : B -> C) (l : list B) (d : B) (d' : C)
  (i : nat) :
  (i < length l)%nat -> nth i (map f l) d' = f (nth i l d).
Proof.
  revert i. induction l as [|x l IH]; intros [|i] Hi; simpl in *; try lia; auto.
  apply IH. lia.
Qed.

Lemma row_length (m : Np.ndarray2 R) (i : nat) :
  Np.wf2 m -> (i < Np.nrows m)%nat -> length (nth i (Np.rows m) []) = Np.ncols m.
Proof.
  intros [Hr Hc] Hi. rewrite Forall_forall in Hc. apply Hc, nth_In. lia.
Qed.

(** A padded row of a block: zeros, the row, zeros. *)
Lemma padded_row_nth (c b j : nat) (r : list R) (tail : nat) :
  length r = b ->
  nth j (Np.zeros c ++ r ++ Np.zeros tail) 0 =
  if ((c <=? j) && (j <? c + b))%nat%bool then nth (j - c) r 0 else 0.
Proof.
  intros Hr.
  assert (Hz : length (Np.zeros (A := R) c) = c) by apply repeat_length.
  destruct (Nat.leb_spec c j) as [Hcj|Hcj]; cbn [andb].
  - rewrite app_nth2 by lia. rewrite Hz.
    destruct (Nat.ltb_spec j (c + b)) as [Hjb|Hjb].
    + rewrite app_nth1 by lia. reflexivity.
    + rewrite app_nth2 by lia. apply nth_zeros.
  - rewrite app_nth1 by lia. apply nth_zeros.
Qed.

(** The entries of the rows [block_diag] writes, for square blocks of
    one size [b], [k] blocks already placed. *)
Lemma place_blocks_entry (b : nat) (ms : list (Np.ndarray2 R)) :
  Forall (fun m => Np.wf2 m /\ Np.nrows m = b /\ Np.ncols m = b) ms ->
  forall k w i j,
    (i < length ms * b)%nat ->
    nth j (nth i (Scipy.place_blocks (k * b) w ms) []) 0 =
    if (k + i / b =? j / b)%nat
    then Np.entry (nth (i / b) ms empty_matrix) (i mod b) (j mod b)
    else 0.
Proof.
  induction 1 as [|m ms (Hwf & Hr & Hc) Hrest IH]; intros k w i j Hi.
  - simpl in Hi. lia.
  - assert (Hb : (0 < b)%nat) by (destruct b; simpl in Hi; lia).
    cbn [Scipy.place_blocks].
    destruct (Nat.lt_ge_cases i b) as [Hib|Hib].
    + rewrite app_nth1 by (rewrite length_map; destruct Hwf; lia).
      rewrite nth_map_in_range with (d := []) by (destruct Hwf; lia).
      rewrite padded_row_nth with (b := b)
        by (rewrite row_length; auto; lia).
      rewrite Nat.div_small, Nat.mod_small, Nat.add_0_r by assumption.
      cbn [nth].
      destruct (Nat.leb_spec (k * b) j) as [H1|H1];
        [destruct (Nat.ltb_spec j (k * b + b)) as [H2|H2]|]; cbn [andb].
      * assert (Hd : (j / b = k)%nat)
          by (replace j with (k * b + (j - k * b))%nat by lia;
              apply div_block; lia).
        assert (Hm : (j mod b = j - k * b)%nat)
          by (replace j with (k * b + (j - k * b))%nat at 1 by lia;
              apply mod_block; lia).
        rewrite Hd, Hm, Nat.eqb_refl. reflexivity.
      * assert (S k <= j / b)%nat
          by (apply Nat.div_le_lower_bound; lia).
        rewrite (proj2 (Nat.eqb_neq _ _)) by lia. reflexivity.
      * assert (j / b < k)%nat
          by (apply Nat.Div0.div_lt_upper_bound; lia).
        rewrite (proj2 (Nat.eqb_neq _ _)) by lia. reflexivity.
    + rewrite app_nth2 by (rewrite length_map; destruct Hwf; lia).
      rewrite length_map. replace (length (Np.rows m)) with b by (destruct Hwf; lia).
      replace (k * b + Np.ncols m)%nat with (S k * b)%nat by (rewrite Hc; lia).
      rewrite IH by (simpl in Hi; lia).
      assert (Hd : (i / b = S ((i - b) / b))%nat)
        by (replace i with ((i - b) + 1 * b)%nat at 1 by lia;
            rewrite Nat.div_add by lia; lia).
      assert (Hm : (i mod b = (i - b) mod b)%nat)
        by (replace i with ((i - b) + 1 * b)%nat at 1 by lia;
            apply Nat.Div0.mod_add).
      rewrite Hd, Hm. cbn [nth].
      replace (k + S ((i - b) / b))%nat with (S k + (i - b) / b)%nat by lia.
      reflexivity.
Qed.

(** The cached matrix, entry by entry. *)
Lemma block_diag_entry (b : nat) (ms : list (Np.ndarray2 R)) (i j : nat) :
  Forall (fun m => Np.wf2 m /\ Np.nrows m = b /\ Np.ncols m = b) ms ->
  (i < length ms * b)%nat ->
  Np.entry (Scipy.assemble ms) i j =
  block_diag_spec b ms i j.
Proof.
  intros Hu Hi. unfold Np.entry, block_diag_spec, Scipy.assemble. cbn [Np.rows].
  change (Scipy.place_blocks 0) with (Scipy.place_blocks (A := R) (0 * b)).
  cbn [s_zero R_scalar].
  rewrite (place_blocks_entry Hu) by assumption.
  reflexivity.
Qed.

Lemma big_sum_blocks (n b : nat) (f : nat -> R) :
  big_sum (n * b) f =
  big_sum n (fun t => big_sum b (fun r => f (t * b + r)%nat)).
Proof.
  induction n as [|n IH]; [reflexivity|].
  replace (S n * b)%nat with (n * b + b)%nat by lia.
  rewrite big_sum_app, IH. reflexivity.
Qed.

Lemma big_sum_pick (n t : nat) (g : nat -> R) :
  (t < n)%nat ->
  big_sum n (fun t' => if (t =? t')%nat then g t' else 0) = g t.
Proof.
  induction n as [|n IH]; intros Ht; [lia|]. cbn [big_sum].
  destruct (Nat.eqb_spec t n) as [E|E].
  - subst. rewrite big_sum_zero; [lra|].
    intros i Hi. rewrite (proj2 (Nat.eqb_neq _ _)) by lia. reflexivity.
  - rewrite IH by lia. lra.
Qed.

Lemma template_slice_length (b : nat) (theta : list R) (t : nat) :
  ((t + 1) * b <= length theta)%nat ->
  length (template_slice b theta t) = b.
Proof. intros Hl. unfold template_slice. lengths. Qed.

Lemma template_slice_nth (b : nat) (theta : list R) (t r : nat) :
  (r < b)%nat ->
  nth r (template_slice b theta t) 0 = nth (t * b + r) theta 0.
Proof.
  intros Hr. unfold template_slice.
  rewrite nth_firstn, (proj2 (Nat.ltb_lt _ _) Hr), nth_skipn. reflexivity.
Qed.

(** The quadratic form of the block-diagonal matrix is the sum of the
    quadratic forms of the blocks, each on its own template's slice:
    no product of nuisance parameters of two templates is left. *)
Lemma quadratic_form_blocks (b : nat) (ms : list (Np.ndarray2 R))
  (theta : list R) :
  Forall (fun m => Np.wf2 m /\ Np.nrows m = b /\ Np.ncols m = b) ms ->
  length theta = (length ms * b)%nat ->
  quadratic_form theta (Scipy.assemble ms) =
  big_sum (length ms) (fun t =>
    quadratic_form (template_slice b theta t) (nth t ms empty_matrix)).
Proof.
  intros Hu Hl. unfold quadratic_form at 1. rewrite Hl.
  rewrite big_sum_blocks. apply big_sum_ext. intros t Ht.
  unfold quadratic_form.
  rewrite template_slice_length by nia.
  apply big_sum_ext. intros r Hr.
  rewrite big_sum_blocks.
  rewrite big_sum_ext with
    (g := fun t' => if (t =? t')%nat
                    then big_sum b (fun r' =>
                           nth (t * b + r) theta 0
                           * Np.entry (nth t' ms empty_matrix) r r'
                           * nth (t' * b + r') theta 0)
                    else 0).
  - rewrite big_sum_pick by assumption.
    apply big_sum_ext. intros r' Hr'.
    rewrite !template_slice_nth by assumption. reflexivity.
  - intros t' Ht'.
    destruct (Nat.eqb_spec t t') as [E|E].
    + subst t'. apply big_sum_ext. intros r' Hr'.
      rewrite block_diag_entry with (b := b) by (auto; nia).
      unfold block_diag_spec.
      rewrite !div_block, !mod_block, Nat.eqb_refl by assumption.
      reflexivity.
    + apply big_sum_zero. intros r' Hr'.
      rewrite block_diag_entry with (b := b) by (auto; nia).
      unfold block_diag_spec.
      rewrite !div_block by assumption.
      rewrite (proj2 (Nat.eqb_neq _ _) E). lra.
Qed.

(* ================================================================== *)
(** * The advanced cost function *)

Lemma bind_assoc {A B C : Type} (c : result A) (f : A -> result B)
  (g : B -> result C) :
  bind (bind c f) g = bind c (fun a => bind (f a) g).
Proof. destruct c; reflexivity. Qed.

(** Construction on 2-D matrices: no check, the cache is assembled. *)
Lemma advanced_init_matrices (hdata : Histogram R) (T : CompositeTemplate R)
  (ms : list (Np.ndarray2 R)) :
  inv_corr_mats T = map Np.Arr2 ms -> ms <> [] ->
  Advanced.__init__ hdata T =
  Ok {| Advanced.base := Base.__init__ hdata T;
        Advanced._block_diag_inv_corr_mats := Scipy.assemble ms |}.
Proof.
  intros Hm Hne. unfold Advanced.__init__, Base.__init__.
  cbn [Base._templates]. rewrite Hm, block_diag_matrices by assumption.
  reflexivity.
Qed.

Lemma inv_corr_shape_nonempty (T : CompositeTemplate R)
  (ms : list (Np.ndarray2 R)) :
  inv_corr_shape T ms -> (0 < num_templates T)%nat -> ms <> [].
Proof. intros (_ & Hl & _) Hn E. subst ms. simpl in Hl. lia. Qed.

(** The cache of a well-shaped collection is square, of size
    [n_templates * n_bins]. *)
Lemma cache_shape (T : CompositeTemplate R) (ms : list (Np.ndarray2 R)) :
  inv_corr_shape T ms ->
  Np.wf2 (Scipy.assemble ms) /\
  Np.nrows (Scipy.assemble ms) = (num_templates T * num_bins T)%nat /\
  Np.ncols (Scipy.assemble ms) = (num_templates T * num_bins T)%nat.
Proof.
  intros (_ & Hl & Hu). split.
  - apply block_diag_wf. eapply uniform_wf, Hu.
  - destruct (uniform_totals Hu) as [Hr Hc].
    unfold Scipy.assemble. cbn [Np.nrows Np.ncols]. rewrite Hr, Hc, Hl. auto.
Qed.

(** Line 194 on a square cache of the nuisance vector's size. *)
Lemma gauss_term_ok (self : Advanced.t R) (x : list R) :
  let theta := skipn (num_templates (Base._templates (Advanced.base self))) x in
  let B := Advanced._block_diag_inv_corr_mats self in
  Np.wf2 B -> Np.nrows B = length theta -> Np.ncols B = length theta ->
  Advanced.gauss_term self x = Ok (gauss_spec theta B).
Proof.
  intros theta B Hwf Hr Hc. unfold Advanced.gauss_term.
  fold theta. fold B.
  rewrite <- (bind_assoc (Np.vecmat theta B) (fun left => Np.dot left theta)).
  rewrite quad_code_spec by assumption. reflexivity.
Qed.

(** Line 194 on a cache of any other shape. *)
Lemma gauss_term_raises (self : Advanced.t R) (x : list R) :
  let theta := skipn (num_templates (Base._templates (Advanced.base self))) x in
  let B := Advanced._block_diag_inv_corr_mats self in
  Np.nrows B <> length theta \/ Np.ncols B <> length theta ->
  Advanced.gauss_term self x = Raise ValueError.
Proof.
  intros theta B Hs. unfold Advanced.gauss_term.
  fold theta. fold B.
  rewrite <- (bind_assoc (Np.vecmat theta B) (fun left => Np.dot left theta)).
  rewrite vecmat_dot_raises by assumption. reflexivity.
Qed.


Lemma example_inv_corr_shape :
  inv_corr_shape example_templates [identity3; identity3].
Proof. repeat constructor. Qed.


(** C4.  The matrix cached at construction is the block-diagonal matrix
    of size [n_templates*n_bins]: each template's inverse correlation
    matrix in order along the diagonal, zero elsewhere; two 2x2 matrices
    give the 4x4 matrix with the first top-left and the second
    bottom-right.  So a product of nuisance parameters of two different
    templates has a zero coefficient, and the Gaussian term is half the
    sum, over the templates, of each template's own quadratic form. *)
Theorem block_diag_cache :
  (forall (hdata : Histogram R) (T : CompositeTemplate R)
          (ms : list (Np.ndarray2 R)),
      let n := num_templates T in
      let b := num_bins T in
      inv_corr_shape T ms -> (0 < n)%nat ->
      exists self,
        Advanced.__init__ hdata T = Ok self /\
        let B := Advanced._block_diag_inv_corr_mats self in
        Np.wf2 B /\ Np.nrows B = (n * b)%nat /\ Np.ncols B = (n * b)%nat /\
        (forall i j, (i < n * b)%nat -> (j < n * b)%nat ->
           Np.entry B i j = block_diag_spec b ms i j) /\
        (forall i j, (i < n * b)%nat -> (j < n * b)%nat ->
           (i / b <> j / b)%nat -> Np.entry B i j = 0) /\
        (forall x, length x = (n + n * b)%nat ->
           Advanced.gauss_term self x =
           Ok (0.5 * big_sum n (fun t =>
                 quadratic_form (template_slice b (skipn n x) t)
                                (nth t ms empty_matrix)))))
  /\ (forall a11 a12 a21 a22 b11 b12 b21 b22 : R,
        Scipy.block_diag
          [Np.Arr2 {| Np.nrows := 2; Np.ncols := 2;
                      Np.rows := [[a11; a12]; [a21; a22]] |};
           Np.Arr2 {| Np.nrows := 2; Np.ncols := 2;
                      Np.rows := [[b11; b12]; [b21; b22]] |}] =
        Ok {| Np.nrows := 4; Np.ncols := 4;
              Np.rows := [[a11; a12; 0; 0];
                          [a21; a22; 0; 0];
                          [0; 0; b11; b12];
                          [0; 0; b21; b22]] |}).
Proof.
  split; [|reflexivity].
  intros hdata T ms n b Hs Hn.
  pose proof (inv_corr_shape_nonempty Hs Hn) as Hne.
  destruct (cache_shape Hs) as (Bwf & Br & Bc).
  destruct Hs as (Hm & Hl & Hu).
  eexists. split; [apply advanced_init_matrices; eassumption|].
  cbn [Advanced._block_diag_inv_corr_mats].
  assert (Hentry : forall i j, (i < n * b)%nat -> (j < n * b)%nat ->
            Np.entry (Scipy.assemble ms) i j = block_diag_spec b ms i j).
  { intros i j Hi _. apply block_diag_entry; [exact Hu|].
    rewrite Hl. exact Hi. }
  split; [exact Bwf|]. split; [exact Br|]. split; [exact Bc|].
  split; [exact Hentry|]. split.
  - intros i j Hi Hj Hd. rewrite Hentry by assumption.
    unfold block_diag_spec.
    rewrite (proj2 (Nat.eqb_neq _ _) Hd). reflexivity.
  - intros x Hx.
    rewrite gauss_term_ok;
      cbn [Advanced.base Advanced._block_diag_inv_corr_mats
           Base.__init__ Base._templates];
      try assumption; try (fold n; fold b; lengths).
    unfold gauss_spec. fold n.
    rewrite (@quadratic_form_blocks b) by (auto; rewrite Hl; fold n; lengths).
    rewrite Hl. reflexivity.
Qed.

(** The cache of the worked configuration. *)
Lemma block_diag_cache_witness :
  exists self,
    Advanced.__init__ (example_data 60 45 45) example_templates = Ok self /\
    Np.nrows (Advanced._block_diag_inv_corr_mats self) = 6%nat /\
    Np.ncols (Advanced._block_diag_inv_corr_mats self) = 6%nat.
Proof.
  destruct (proj1 block_diag_cache (example_data 60 45 45) example_templates
              [identity3; identity3] example_inv_corr_shape)
    as (self & Hi & _ & Hr & Hc & _).
  - simpl. lia.
  - exists self. repeat split; assumption.
Defined.

Lemma all_zero_zeros (l : list R) :
  Forall (fun v => v = 0) l -> l = Np.zeros (length l).
Proof.
  induction 1 as [|v l Hv _ IH]; [reflexivity|].
  subst v. cbn [length]. unfold Np.zeros in *. cbn [repeat]. f_equal. exact IH.
Qed.

Lemma quadratic_form_zero (n : nat) (M : Np.ndarray2 R) :
  quadratic_form (Np.zeros n) M = 0.
Proof.
  unfold quadratic_form. apply big_sum_zero. intros i _.
  apply big_sum_zero. intros j _. rewrite !nth_zeros. lra.
Qed.

Lemma bind_ok {A : Type} (c : result A) : bind c Ok = c.
Proof. destruct c; reflexivity. Qed.

(** C3.  When [bin_fractions] at the all-zero nuisance vector is the
    nominal [bin_fractions()], then at every input whose nuisance part
    is all zeros the Poisson term of the advanced cost function is the
    simple cost function at the same yields, the Gaussian term is
    exactly zero, and the two cost functions return the same. *)
Theorem zero_nuisance_reduction (hdata : Histogram R) (T : CompositeTemplate R)
  (ms : list (Np.ndarray2 R)) (x : list R) :
  let n := num_templates T in
  let b := num_bins T in
  inv_corr_shape T ms -> (0 < n)%nat ->
  length x = (n + n * b)%nat ->
  Forall (fun v => v = 0) (skipn n x) ->
  bin_fractions T (Some (Np.zeros (n * b))) = bin_fractions T None ->
  exists self,
    Advanced.__init__ hdata T = Ok self /\
    Advanced.poisson_term self x =
      Simple.__call__ (Simple.__init__ hdata T) (firstn n x) /\
    Advanced.gauss_term self x = Ok 0 /\
    Advanced.__call__ self x =
      Simple.__call__ (Simple.__init__ hdata T) (firstn n x).
Proof.
  intros n b Hs Hn Hx Hz Hnom.
  pose proof (inv_corr_shape_nonempty Hs Hn) as Hne.
  destruct (cache_shape Hs) as (Bwf & Br & Bc).
  assert (Hth : skipn n x = Np.zeros (n * b)).
  { rewrite (all_zero_zeros Hz). f_equal. lengths. }
  eexists. split; [apply advanced_init_matrices; [apply Hs|exact Hne]|].
  assert (HP : Advanced.poisson_term
                 {| Advanced.base := Base.__init__ hdata T;
                    Advanced._block_diag_inv_corr_mats := Scipy.assemble ms |} x =
               Simple.__call__ (Simple.__init__ hdata T) (firstn n x)).
  { unfold Advanced.poisson_term, Simple.__call__, Simple.__init__.
    cbn [Advanced.base Base.__init__ Base._templates]. fold n.
    rewrite Hth, Hnom.
    destruct (bin_fractions T None) as [F|e]; [|reflexivity]. cbn [bind].
    destruct (Np.vecmat (firstn n x) F) as [ev|e]; [|reflexivity]. cbn [bind].
    symmetry. apply bind_ok. }
  assert (HG : Advanced.gauss_term
                 {| Advanced.base := Base.__init__ hdata T;
                    Advanced._block_diag_inv_corr_mats := Scipy.assemble ms |} x =
               Ok 0).
  { rewrite gauss_term_ok;
      cbn [Advanced.base Advanced._block_diag_inv_corr_mats
           Base.__init__ Base._templates];
      try assumption; try (fold n; fold b; lengths).
    fold n. rewrite Hth. unfold gauss_spec.
    rewrite quadratic_form_zero. f_equal. lra. }
  split; [exact HP|]. split; [exact HG|].
  unfold Advanced.__call__. rewrite HP, HG.
  destruct (Simple.__call__ (Simple.__init__ hdata T) (firstn n x)) as [p|e];
    [|reflexivity].
  cbn [bind]. f_equal. cbn [s_add R_scalar]. lra.
Qed.

(** The worked configuration, whose [bin_fractions] ignores its argument. *)
Lemma zero_nuisance_reduction_witness :
  exists self,
    Advanced.__init__ (example_data 60 45 45) example_templates = Ok self /\
    Advanced.poisson_term self [100; 50; 0; 0; 0; 0; 0; 0] =
      Simple.__call__ (Simple.__init__ (example_data 60 45 45) example_templates)
                      [100; 50] /\
    Advanced.gauss_term self [100; 50; 0; 0; 0; 0; 0; 0] = Ok 0 /\
    Advanced.__call__ self [100; 50; 0; 0; 0; 0; 0; 0] =
      Simple.__call__ (Simple.__init__ (example_data 60 45 45) example_templates)
                      [100; 50].
Proof.
  apply (@zero_nuisance_reduction (example_data 60 45 45) example_templates
           [identity3; identity3] [100; 50; 0; 0; 0; 0; 0; 0]).
  - exact example_inv_corr_shape.
  - simpl. lia.
  - reflexivity.
  - repeat constructor.
  - reflexivity.
Defined.

(* ================================================================== *)
(** * Start vector and parameter names *)

Lemma advanced_init_base (hdata : Histogram R) (T : CompositeTemplate R)
  (self : Advanced.t R) :
  Advanced.__init__ hdata T = Ok self ->
  Advanced.base self = Base.__init__ hdata T.
Proof.
  unfold Advanced.__init__. cbn [Base.__init__ Base._templates].
  destruct (Scipy.block_diag (inv_corr_mats T)) as [B|e]; cbn [bind];
    intros E; inversion E. reflexivity.
Qed.

(** C8.  Reading [x0] fails while the yields of the template collection
    are missing; otherwise it is [yield_values] for the simple cost
    function, and [yield_values] followed by [nuiss_param_values] for
    the advanced one. *)
Theorem x0_start_vector (hdata : Histogram R) (T : CompositeTemplate R) :
  match yields T with
  | None =>
      raises (Simple.x0 (Simple.__init__ hdata T)) /\
      (forall self, Advanced.__init__ hdata T = Ok self ->
                    raises (Advanced.x0 self))
  | Some ys =>
      Simple.x0 (Simple.__init__ hdata T) = Ok ys /\
      (forall self, Advanced.__init__ hdata T = Ok self ->
                    Advanced.x0 self = Ok (ys ++ nuiss_param_values T))
  end.
Proof.
  destruct (yields T) as [ys|] eqn:Hy; split.
  - unfold Simple.x0, Base.x0, yield_values. simpl. rewrite Hy. reflexivity.
  - intros self Hi. unfold Advanced.x0, yield_values.
    rewrite (advanced_init_base _ _ Hi). simpl. rewrite Hy. reflexivity.
  - exists AttributeError.
    unfold Simple.x0, Base.x0, yield_values. simpl. rewrite Hy. reflexivity.
  - intros self Hi. exists AttributeError. unfold Advanced.x0, yield_values.
    rewrite (advanced_init_base _ _ Hi). simpl. rewrite Hy. reflexivity.
Qed.

Lemma concat_map_nth {B : Type} (f : B -> list string) (l : list B) (d : B)
  (b t i : nat) :
  (forall y, length (f y) = b) -> (t < length l)%nat -> (i < b)%nat ->
  nth (t * b + i) (concat (map f l)) EmptyString = nth i (f (nth t l d)) EmptyString.
Proof.
  intros Hf. revert t. induction l as [|y l IH]; intros [|t] Ht Hi;
    simpl in Ht; try lia; cbn [map concat nth].
  - rewrite app_nth1 by (rewrite Hf; simpl; lia). reflexivity.
  - rewrite app_nth2 by (rewrite Hf; simpl; lia).
    rewrite Hf. replace (S t * b + i - b)%nat with (t * b + i)%nat by (simpl; lia).
    apply IH; lia.
Qed.

Lemma concat_map_length {B : Type} (f : B -> list string) (l : list B) (b : nat) :
  (forall y, length (f y) = b) ->
  length (concat (map f l)) = (length l * b)%nat.
Proof.
  intros Hf. induction l as [|y l IH]; [reflexivity|].
  cbn [map concat length]. rewrite length_app, Hf, IH. simpl. reflexivity.
Qed.

(** C9.  For a constructed cost function over a collection with the
    sizes of the data model, [param_names] is as long as [x0]; it lists
    ["yield_" + id] for the template ids in order, and then, for the
    advanced cost function only, ["theta_" + id + "_" + str(bin)],
    template by template and bin by bin from zero. *)
Theorem param_names_layout (hdata : Histogram R) (T : CompositeTemplate R)
  (ys : list R) :
  let n := num_templates T in
  let b := num_bins T in
  let ids := template_ids T in
  start_values_shape T ys ->
  (let self := Simple.__init__ hdata T in
   Simple.x0 self = Ok ys /\
   length (Simple.param_names self) = length ys /\
   (forall k, (k < n)%nat ->
      nth k (Simple.param_names self) EmptyString =
      ("yield_" ++ nth k ids EmptyString)%string)) /\
  (forall self, Advanced.__init__ hdata T = Ok self ->
     exists v,
       Advanced.x0 self = Ok v /\
       length (Advanced.param_names self) = length v /\
       (forall k, (k < n)%nat ->
          nth k (Advanced.param_names self) EmptyString =
          ("yield_" ++ nth k ids EmptyString)%string) /\
       (forall t i, (t < n)%nat -> (i < b)%nat ->
          nth (n + (t * b + i)) (Advanced.param_names self) EmptyString =
          ("theta_" ++ nth t ids EmptyString ++ "_" ++ str i)%string)).
Proof.
  intros n b ids (Hy & Hly & Hli & Hln). subst n b ids. split.
  - cbn zeta. unfold Simple.x0, Base.x0, yield_values, Simple.param_names.
    simpl. rewrite Hy. split; [reflexivity|].
    split; [rewrite length_map; lia|].
    intros k Hk.
    apply (nth_map_in_range (fun template => ("yield_" ++ template)%string)).
    lia.
  - intros self Hi. exists (ys ++ nuiss_param_values T).
    unfold Advanced.x0, yield_values, Advanced.param_names.
    rewrite (advanced_init_base _ _ Hi). simpl. rewrite Hy.
    set (names := fun template_name =>
           map (fun i => ("theta_" ++ template_name ++ "_" ++ str i)%string)
               (seq 0 (num_bins T))).
    assert (Hnames : forall y, length (names y) = num_bins T)
      by (intros y; unfold names; rewrite length_map, length_seq; reflexivity).
    split; [reflexivity|].
    split; [|split].
    + rewrite !length_app, length_map, (concat_map_length _ _ Hnames).
      rewrite Hli, Hly, Hln. reflexivity.
    + intros k Hk. rewrite app_nth1 by (rewrite length_map; lia).
      apply (nth_map_in_range (fun template => ("yield_" ++ template)%string)).
      lia.
    + intros t i Ht Hi'.
      rewrite app_nth2 by (rewrite length_map; lia).
      rewrite length_map, Hli.
      replace (num_templates T + (t * num_bins T + i) - num_templates T)%nat
        with (t * num_bins T + i)%nat by lia.
      rewrite (concat_map_nth names (template_ids T) EmptyString Hnames) by lia.
      unfold names.
      rewrite (nth_map_in_range _ _ O) by (rewrite length_seq; lia).
      rewrite seq_nth by lia. reflexivity.
Qed.

Lemma example_start_values :
  start_values_shape example_templates [100; 50].
Proof. repeat split. Qed.

(** The names of the worked configuration. *)
Lemma param_names_layout_witness :
  nth 1 (Simple.param_names
           (Simple.__init__ (example_data 60 45 45) example_templates))
      EmptyString = "yield_bkg"%string /\
  nth (2 + (1 * 3 + 2)) (Advanced.param_names example_advanced) EmptyString
  = "theta_bkg_2"%string.
Proof.
  destruct (@param_names_layout (example_data 60 45 45) example_templates
              [100; 50] example_start_values) as [(_ & _ & Hs) Ha].
  split.
  - apply (Hs 1%nat). simpl. lia.
  - destruct (Ha example_advanced eq_refl) as (v & _ & _ & _ & Ht).
    apply (Ht 1%nat 2%nat); simpl; lia.
Defined.

Lemma example_advanced_init :
  Advanced.__init__ (example_data 60 45 45) example_templates = Ok example_advanced.
Proof. reflexivity. Qed.

(** The start vectors of the worked configuration. *)
Lemma x0_start_vector_witness :
  Simple.x0 (Simple.__init__ (example_data 60 45 45) example_templates)
  = Ok [100; 50] /\
  Advanced.x0 example_advanced = Ok [100; 50; 0; 0; 0; 0; 0; 0].
Proof.
  pose proof (x0_start_vector (example_data 60 45 45) example_templates) as H.
  cbn [yields example_templates] in H. destruct H as [H1 H2].
  split; [exact H1|]. apply H2. exact example_advanced_init.
Defined.

(* ================================================================== *)
(** * Shape errors *)

Lemma raises_bind {A B : Type} (c : result A) (k : A -> result B) :
  raises c -> raises (bind c k).
Proof. intros [e E]. exists e. rewrite E. reflexivity. Qed.

Lemma raises_bind_each {A B : Type} (c : result A) (k : A -> result B) :
  (forall a, c = Ok a -> raises (k a)) -> raises (bind c k).
Proof.
  intros Hk. destruct c as [a|e]; cbn [bind].
  - apply Hk. reflexivity.
  - exists e. reflexivity.
Qed.

(** [block_diag] of nothing: one row, no column. *)
Lemma block_diag_nothing :
  Scipy.block_diag (A := R) [] =
  Ok {| Np.nrows := 1; Np.ncols := 0; Np.rows := [[]] |}.
Proof. reflexivity. Qed.

(** The shape of the cache of a well-shaped collection, also when it has
    no template: then the nuisance part of a well-sized input is empty,
    and the cache still has one row. *)
Lemma cache_rejects (hdata : Histogram R) (T : CompositeTemplate R)
  (ms : list (Np.ndarray2 R)) (self : Advanced.t R) (m : nat) :
  inv_corr_shape T ms ->
  Advanced.__init__ hdata T = Ok self ->
  m <> (num_templates T * num_bins T)%nat ->
  Np.nrows (Advanced._block_diag_inv_corr_mats self) <> m \/
  Np.ncols (Advanced._block_diag_inv_corr_mats self) <> m.
Proof.
  intros Hs Hi Hm. destruct ms as [|m0 ms].
  - destruct Hs as (Hmats & Hl & _). simpl in Hl.
    unfold Advanced.__init__ in Hi. cbn [Base.__init__ Base._templates] in Hi.
    rewrite Hmats in Hi. cbn [map] in Hi. rewrite block_diag_nothing in Hi.
    cbn [bind] in Hi. inversion Hi; subst self.
    cbn [Advanced._block_diag_inv_corr_mats Np.nrows Np.ncols].
    right. rewrite <- Hl in Hm. simpl in Hm. lia.
  - destruct (cache_shape Hs) as (_ & Br & _).
    rewrite (@advanced_init_matrices hdata T (m0 :: ms)) in Hi
      by (try apply Hs; discriminate).
    inversion Hi; subst self. cbn [Advanced._block_diag_inv_corr_mats].
    left. rewrite Br. lia.
Qed.

(** Why the statements about evaluation ask for one template at least:
    with an empty [inv_corr_mats] the cache is 1 by 0, and line 194
    raises on every input. *)
Lemma no_template_call_raises (hdata : Histogram R) (T : CompositeTemplate R)
  (self : Advanced.t R) (x : list R) :
  inv_corr_mats T = [] ->
  Advanced.__init__ hdata T = Ok self ->
  raises (Advanced.__call__ self x).
Proof.
  intros Hm Hi. unfold Advanced.__init__ in Hi.
  cbn [Base.__init__ Base._templates] in Hi.
  rewrite Hm, block_diag_nothing in Hi. cbn [bind] in Hi.
  inversion Hi; subst self. unfold Advanced.__call__.
  apply raises_bind_each. intros p _.
  apply raises_bind. exists ValueError. apply gauss_term_raises.
  cbn [Advanced._block_diag_inv_corr_mats Np.nrows Np.ncols]. lia.
Qed.

(** C6.  Over a collection with the sizes of the data model, either cost
    function rejects an input whose length is not [len(x0)]: the call
    raises, nothing is truncated or padded. *)
Theorem length_mismatch_rejected (hdata : Histogram R) (T : CompositeTemplate R)
  (ms : list (Np.ndarray2 R)) (ys x : list R) :
  start_values_shape T ys -> fractions_shape T -> inv_corr_shape T ms ->
  (forall v, Simple.x0 (Simple.__init__ hdata T) = Ok v ->
             length x <> length v ->
             raises (Simple.__call__ (Simple.__init__ hdata T) x)) /\
  (forall self v, Advanced.__init__ hdata T = Ok self ->
             Advanced.x0 self = Ok v ->
             length x <> length v ->
             raises (Advanced.__call__ self x)).
Proof.
  intros (Hy & Hly & Hli & Hln) Hf Hs. split.
  - intros v Hv Hx.
    assert (v = ys).
    { revert Hv. unfold Simple.x0, Base.x0, yield_values. simpl.
      rewrite Hy. intros E; inversion E; reflexivity. }
    subst v. unfold Simple.__call__, Simple.__init__.
    cbn [Base.__init__ Base._templates].
    apply raises_bind_each. intros F HF.
    destruct (Hf _ _ HF) as (_ & Hr & _).
    apply raises_bind. exists ValueError. apply vecmat_raises. lia.
  - intros self v Hi Hv Hx.
    assert (v = ys ++ nuiss_param_values T).
    { revert Hv. unfold Advanced.x0, yield_values.
      rewrite (advanced_init_base _ _ Hi). simpl.
      rewrite Hy. intros E; inversion E; reflexivity. }
    subst v. rewrite length_app, Hly, Hln in Hx.
    unfold Advanced.__call__.
    destruct (Nat.lt_ge_cases (length x) (num_templates T)) as [Hshort|Hlong].
    + apply raises_bind. unfold Advanced.poisson_term.
      rewrite (advanced_init_base _ _ Hi).
      cbn [Base.__init__ Base._templates].
      apply raises_bind_each. intros F HF.
      destruct (Hf _ _ HF) as (_ & Hr & _).
      apply raises_bind. exists ValueError. apply vecmat_raises.
      rewrite length_firstn. lia.
    + apply raises_bind_each. intros p _.
      apply raises_bind. exists ValueError.
      apply gauss_term_raises.
      apply (@cache_rejects hdata T ms self _ Hs Hi).
      rewrite (advanced_init_base _ _ Hi).
      cbn [Base.__init__ Base._templates].
      rewrite length_skipn. lia.
Qed.

Lemma example_fractions_shape : fractions_shape example_templates.
Proof.
  intros arg F HF. simpl in HF. inversion HF; subst F. repeat constructor.
Qed.

(** The worked configuration called with one entry too many. *)
Lemma length_mismatch_rejected_witness :
  raises (Simple.__call__
            (Simple.__init__ (example_data 60 45 45) example_templates)
            [100; 50; 7]) /\
  raises (Advanced.__call__ example_advanced [100; 50; 0; 0; 0; 0; 0; 0; 7]).
Proof.
  destruct (@length_mismatch_rejected (example_data 60 45 45)
              example_templates [identity3; identity3] [100; 50]
              [100; 50; 7]
              example_start_values example_fractions_shape
              example_inv_corr_shape) as [Hs _].
  destruct (@length_mismatch_rejected (example_data 60 45 45)
              example_templates [identity3; identity3] [100; 50]
              [100; 50; 0; 0; 0; 0; 0; 0; 7]
              example_start_values example_fractions_shape
              example_inv_corr_shape) as [_ Ha].
  split.
  - apply (Hs [100; 50]); [reflexivity|simpl; lia].
  - apply (Ha example_advanced [100; 50; 0; 0; 0; 0; 0; 0]);
      [reflexivity|reflexivity|simpl; lia].
Defined.

(** C7, as stated, fails: a single 1-by-2 matrix, for two templates of
    three bins, is accepted at construction. *)
Lemma construction_shape_error_counterexample :
  (~ exists ms, inv_corr_shape misshapen_templates ms) /\
  exists self,
    Advanced.__init__ (example_data 60 45 45) misshapen_templates = Ok self.
Proof.
  split.
  - intros (ms & Hm & Hl & _).
    apply (f_equal (@length _)) in Hm. rewrite length_map in Hm.
    simpl in Hm, Hl. lia.
  - eexists. reflexivity.
Qed.

(* ================================================================== *)
(** * Positive semi-definite matrices *)

Lemma big_sum_lin4 (n : nat) (g1 g2 g3 g4 : nat -> R) (c1 c2 c3 c4 : R) :
  big_sum n (fun i => c1 * g1 i + c2 * g2 i + c3 * g3 i + c4 * g4 i) =
  c1 * big_sum n g1 + c2 * big_sum n g2 + c3 * big_sum n g3 + c4 * big_sum n g4.
Proof. induction n as [|n IH]; simpl; [ring|rewrite IH; ring]. Qed.

Lemma big_sum_delta (N k : nat) (g : nat -> R) :
  (k < N)%nat -> big_sum N (fun i => unit_at k i * g i) = g k.
Proof.
  intros Hk. rewrite <- (big_sum_pick g Hk).
  apply big_sum_ext. intros i _. unfold unit_at.
  destruct (k =? i)%nat; lra.
Qed.

Lemma quadratic_form_fun (v : list R) (M : Np.ndarray2 R) :
  quadratic_form v M = quad_fun (length v) (fun i => nth i v 0) M.
Proof. reflexivity. Qed.

Lemma quad_fun_list (N : nat) (f : nat -> R) (M : Np.ndarray2 R) :
  quad_fun N f M = quadratic_form (map f (seq 0 N)) M.
Proof.
  unfold quadratic_form, quad_fun. rewrite length_map, length_seq.
  apply big_sum_ext. intros i Hi. apply big_sum_ext. intros j Hj.
  rewrite !map_seq_nth by assumption. reflexivity.
Qed.

(** The form factors through the rows: [a^T M a = sum_i a_i (M a)_i]. *)
Lemma quad_fun_rows (N : nat) (a : nat -> R) (M : Np.ndarray2 R) :
  quad_fun N a M = big_sum N (fun i => a i * row_dot N M a i).
Proof.
  unfold quad_fun, row_dot. apply big_sum_ext. intros i _.
  rewrite <- big_sum_scal. apply big_sum_ext. intros j _. ring.
Qed.

Section SymmetricForm.
Variable N : nat.
Variable M : Np.ndarray2 R.
Hypothesis M_symmetric :
  forall i j, (i < N)%nat -> (j < N)%nat -> Np.entry M i j = Np.entry M j i.

(** The form along the line through [a] in direction [e_k]. *)
Lemma quad_fun_line (k : nat) (a : nat -> R) (alpha beta : R) :
  (k < N)%nat ->
  quad_fun N (fun i => alpha * a i + beta * unit_at k i) M =
  alpha * alpha * quad_fun N a M
  + 2 * alpha * beta * row_dot N M a k
  + beta * beta * Np.entry M k k.
Proof.
  intros Hk.
  assert (S1 : big_sum N (fun i => big_sum N (fun j =>
                 unit_at k i * Np.entry M i j * a j)) = row_dot N M a k).
  { rewrite <- (big_sum_delta (row_dot N M a) Hk).
    apply big_sum_ext. intros i _. unfold row_dot.
    rewrite <- big_sum_scal. apply big_sum_ext. intros j _. ring. }
  assert (S2 : big_sum N (fun i => big_sum N (fun j =>
                 a i * Np.entry M i j * unit_at k j)) = row_dot N M a k).
  { unfold row_dot. apply big_sum_ext. intros i Hi.
    rewrite (M_symmetric Hk Hi).
    rewrite <- (big_sum_delta (fun j => Np.entry M i j * a i) Hk).
    apply big_sum_ext. intros j _. ring. }
  assert (S3 : big_sum N (fun i => big_sum N (fun j =>
                 unit_at k i * Np.entry M i j * unit_at k j)) = Np.entry M k k).
  { rewrite <- (big_sum_delta (fun i => Np.entry M i k) Hk).
    apply big_sum_ext. intros i _.
    rewrite <- (big_sum_delta (fun j => unit_at k i * Np.entry M i j) Hk).
    apply big_sum_ext. intros j _. ring. }
  unfold quad_fun at 1.
  rewrite big_sum_ext with
    (g := fun i =>
       alpha * alpha * big_sum N (fun j => a i * Np.entry M i j * a j)
       + alpha * beta * big_sum N (fun j => unit_at k i * Np.entry M i j * a j)
       + alpha * beta * big_sum N (fun j => a i * Np.entry M i j * unit_at k j)
       + beta * beta * big_sum N (fun j => unit_at k i * Np.entry M i j * unit_at k j)).
  - rewrite big_sum_lin4, S1, S2, S3. unfold quad_fun. ring.
  - intros i _. rewrite <- big_sum_lin4. apply big_sum_ext. intros j _. ring.
Qed.

Hypothesis M_psd : forall f, 0 <= quad_fun N f M.

(** A vector on which the form vanishes is sent to zero by the matrix:
    along [(c+1) a - r e_k], with [r = (M a)_k] and [c = M_kk], the form
    is [-(c+2) r^2], which is non-negative only for [r = 0]. *)
Lemma psd_kernel (a : nat -> R) :
  quad_fun N a M = 0 ->
  forall k, (k < N)%nat -> row_dot N M a k = 0.
Proof.
  intros Hq k Hk.
  set (r := row_dot N M a k). set (c := Np.entry M k k).
  assert (Hc : 0 <= c).
  { pose proof (M_psd (fun i => 0 * a i + 1 * unit_at k i)) as H.
    rewrite (quad_fun_line a 0 1 Hk) in H. fold c in H. lra. }
  pose proof (M_psd (fun i => (c + 1) * a i + (- r) * unit_at k i)) as H.
  rewrite (quad_fun_line a (c + 1) (- r) Hk), Hq in H.
  fold r in H. fold c in H.
  assert (Hr : r * r * (c + 2) <= 0) by lra.
  assert (Hsq : 0 <= r * r) by nra.
  assert (r * r = 0) by nra.
  nra.
Qed.

End SymmetricForm.

Lemma block_in_range (P : Np.ndarray2 R -> Prop) (ms : list (Np.ndarray2 R))
  (t : nat) :
  Forall P ms -> (t < length ms)%nat -> P (nth t ms empty_matrix).
Proof.
  intros HP Ht. rewrite Forall_forall in HP. apply HP, nth_In, Ht.
Qed.

(** The cache of symmetric blocks is symmetric. *)
Lemma cache_symmetric (b : nat) (ms : list (Np.ndarray2 R)) (i j : nat) :
  Forall (fun m => Np.wf2 m /\ Np.nrows m = b /\ Np.ncols m = b) ms ->
  Forall symmetric ms ->
  (i < length ms * b)%nat -> (j < length ms * b)%nat ->
  Np.entry (Scipy.assemble ms) i j = Np.entry (Scipy.assemble ms) j i.
Proof.
  intros Hu Hsym Hi Hj.
  rewrite !(@block_diag_entry b) by assumption.
  unfold block_diag_spec. rewrite (Nat.eqb_sym (j / b)).
  destruct (Nat.eqb_spec (i / b) (j / b)) as [E|E]; [|reflexivity].
  rewrite <- E. apply (@block_in_range symmetric); [exact Hsym|].
  apply Nat.Div0.div_lt_upper_bound. lia.
Qed.

(** The cache of positive semi-definite blocks is positive semi-definite. *)
Lemma cache_psd (b : nat) (ms : list (Np.ndarray2 R)) (f : nat -> R) :
  Forall (fun m => Np.wf2 m /\ Np.nrows m = b /\ Np.ncols m = b) ms ->
  Forall positive_semidefinite ms ->
  0 <= quad_fun (length ms * b) f (Scipy.assemble ms).
Proof.
  intros Hu Hpsd. rewrite quad_fun_list.
  rewrite (@quadratic_form_blocks b) by (auto; lengths).
  apply big_sum_nonneg. intros t Ht.
  apply (@block_in_range positive_semidefinite _ t Hpsd Ht).
  rewrite template_slice_length by (rewrite length_map, length_seq; nia).
  symmetry. apply (@block_in_range (fun m => Np.wf2 m /\ Np.nrows m = b /\ Np.ncols m = b)
                     _ t Hu Ht).
Qed.

Lemma forall_map_nth {B : Type} (g : B -> R) (l : list B) (d : B) :
  Forall (fun y => y = 0) (map g l) <->
  (forall k, (k < length l)%nat -> g (nth k l d) = 0).
Proof.
  rewrite Forall_forall. split.
  - intros H k Hk. apply H, in_map, nth_In, Hk.
  - intros H y Hy. apply in_map_iff in Hy. destruct Hy as (x & <- & Hx).
    destruct (In_nth _ _ d Hx) as (k & Hk & <-). apply H, Hk.
Qed.

(** The kernel, row by row. *)
Lemma in_kernel_rows (M : Np.ndarray2 R) (v : list R) :
  Np.wf2 M ->
  in_kernel M v <->
  (forall k, (k < Np.nrows M)%nat ->
     row_dot (length v) M (fun j => nth j v 0) k = 0).
Proof.
  intros [Hr _]. unfold in_kernel, matvec.
  rewrite (forall_map_nth _ (Np.rows M) []), Hr. reflexivity.
Qed.

(** The worked configuration, with identity inverse correlations. *)
Lemma identity3_symmetric : symmetric identity3.
Proof.
  intros i j. unfold Np.entry. cbn [Np.rows identity3].
  destruct i as [|[|[|i]]]; destruct j as [|[|[|j]]]; cbn [nth];
    try reflexivity;
    try (destruct i; reflexivity); try (destruct j; reflexivity);
    destruct i; destruct j; reflexivity.
Qed.

Lemma identity3_psd : positive_semidefinite identity3.
Proof.
  intros v Hv. destruct v as [|v0 [|v1 [|v2 [|? ?]]]]; try discriminate Hv.
  unfold quadratic_form, Np.entry. simpl. nra.
Qed.


(* ================================================================== *)
(** * Empty bins: the logarithm at zero *)

Lemma np_log_pos (r : R) : 0 < r -> np_log (Fin r) = Fin (ln r).
Proof.
  intros Hr. unfold np_log. destruct (Rlt_dec 0 r) as [_|N]; [reflexivity|].
  contradiction.
Qed.

Lemma np_log_zero : np_log (Fin 0) = NInf.
Proof.
  unfold np_log. destruct (Rlt_dec 0 0) as [H|_]; [lra|reflexivity].
Qed.

Lemma np_mul_pos_ninf (o : R) : 0 < o -> np_mul (Fin o) NInf = NInf.
Proof.
  intros Ho. unfold np_mul, np_scale_inf.
  destruct (Rlt_dec 0 o) as [_|N]; [reflexivity|contradiction].
Qed.

Lemma np_mul_zero_ninf : np_mul (Fin 0) NInf = NaN.
Proof.
  unfold np_mul, np_scale_inf.
  destruct (Rlt_dec 0 0) as [H|_]; [lra|reflexivity].
Qed.

(** The three kinds of bin. *)
Lemma bin_term_covered (e o : R) :
  0 < e -> poisson_bin_term e o = Fin (e - o * ln e).
Proof.
  intros He. unfold poisson_bin_term. rewrite np_log_pos by assumption.
  reflexivity.
Qed.

Lemma bin_term_empty_observed (o : R) :
  0 < o -> poisson_bin_term 0 o = PInf.
Proof.
  intros Ho. unfold poisson_bin_term.
  rewrite np_log_zero, np_mul_pos_ninf by assumption. reflexivity.
Qed.

Lemma bin_term_empty_unobserved : poisson_bin_term 0 0 = NaN.
Proof.
  unfold poisson_bin_term. rewrite np_log_zero, np_mul_zero_ninf. reflexivity.
Qed.

(** Finite arrays stay finite under [@]. *)
Lemma fin_zip_mul (u v : list R) :
  Np.zip_with s_mul (map Fin u) (map Fin v) = map Fin (Np.zip_with s_mul u v).
Proof.
  revert v. induction u as [|a u IH]; intros [|b v]; simpl; try reflexivity.
  f_equal. apply IH.
Qed.

Lemma fin_fold_add (l : list R) (a : R) :
  fold_left np_add (map Fin l) (Fin a) = Fin (fold_left Rplus l a).
Proof.
  revert a. induction l as [|y l IH]; intros a; simpl; [reflexivity|].
  apply IH.
Qed.

Lemma fin_sum (l : list R) : Np.sum (map Fin l) = Fin (Np.sum l).
Proof. unfold Np.sum. simpl. apply fin_fold_add. Qed.

Lemma fin_column (M : Np.ndarray2 R) (j : nat) :
  Np.column (fin_matrix M) j = map Fin (Np.column M j).
Proof.
  unfold Np.column, fin_matrix. cbn [Np.rows]. rewrite !map_map.
  apply map_ext. intros r. exact (map_nth Fin r 0 j).
Qed.

Lemma fin_vecmat (v : list R) (M : Np.ndarray2 R) :
  Np.wf2 M -> length v = Np.nrows M ->
  Np.vecmat (map Fin v) (fin_matrix M) =
  Ok (map Fin (map (expected_spec v M) (seq 0 (Np.ncols M)))).
Proof.
  intros Hwf Hl. unfold Np.vecmat. cbn [fin_matrix Np.nrows Np.ncols].
  rewrite length_map, (proj2 (Nat.eqb_eq _ _) Hl). f_equal.
  rewrite map_map. apply map_ext. intros j.
  rewrite fin_column, fin_zip_mul, fin_sum, vecmat_entry by assumption.
  reflexivity.
Qed.

(** The Poisson sum of the code on finite arrays of one length. *)
Lemma fin_poisson_sum (self : Base.t npfloat) (e : nat -> R) (obs : list R)
  (b : nat) :
  bin_counts (Base._data self) = map Fin obs -> length obs = b ->
  Base.poisson_sum self (map Fin (map e (seq 0 b))) =
  Ok (Np.sum (bin_terms e obs b)).
Proof.
  intros Hd Hb. unfold Base.poisson_sum, Np.log. rewrite Hd.
  rewrite broadcast_same by lengths. cbn [bind].
  rewrite broadcast_same by lengths. cbn [bind]. f_equal. f_equal.
  apply nth_ext with (d := NaN) (d' := NaN).
  - unfold bin_terms. lengths.
  - intros i Hi.
    assert (Hib : (i < b)%nat) by (revert Hi; lengths).
    rewrite (zip_with_nth_gen _ _ _ NaN (Fin 0) NaN) by lengths.
    rewrite (zip_with_nth_gen _ _ _ NaN (Fin 0) NaN) by lengths.
    unfold bin_terms.
    rewrite (nth_map_in_range _ _ O) by lengths.
    rewrite seq_nth by lia. cbn [Nat.add].
    rewrite (nth_map_in_range np_log _ (Fin 0)) by lengths.
    rewrite !(nth_map_in_range Fin _ 0) by lengths.
    rewrite (nth_map_in_range e _ O) by lengths.
    rewrite seq_nth by lia. reflexivity.
Qed.

(** The simple cost function on finite inputs: the sum of the bin terms. *)
Lemma fin_simple_call (T : CompositeTemplate npfloat) (F : Np.ndarray2 R)
  (obs x : list R) :
  bin_fractions T None = Ok (fin_matrix F) ->
  Np.wf2 F -> Np.nrows F = length x -> Np.ncols F = length obs ->
  Simple.__call__ (Simple.__init__ {| bin_counts := map Fin obs |} T) (map Fin x) =
  Ok (Np.sum (bin_terms (expected_spec x F) obs (length obs))).
Proof.
  intros HF Hwf Hr Hc. unfold Simple.__call__, Simple.__init__, Base.__init__.
  cbn [Base._templates]. rewrite HF. cbn [bind].
  rewrite fin_vecmat by (auto; lia). cbn [bind].
  rewrite Hc, (@fin_poisson_sum _ (expected_spec x F) obs (length obs))
    by reflexivity.
  reflexivity.
Qed.

(** Finite terms and [+inf] terms add up to [+inf] once one is [+inf]. *)
Lemma fold_add_inf (ts : list npfloat) (acc : npfloat) :
  (acc = PInf \/ exists r, acc = Fin r) ->
  Forall (fun t => t = PInf \/ exists r, t = Fin r) ts ->
  acc = PInf \/ Exists (fun t => t = PInf) ts ->
  fold_left np_add ts acc = PInf.
Proof.
  revert acc. induction ts as [|t ts IH]; intros acc Hacc Hts Hinf.
  - destruct Hinf as [E|E]; [exact E|inversion E].
  - inversion Hts as [|? ? Ht Hrest]; subst. cbn [fold_left].
    apply IH; [|exact Hrest|].
    + destruct Hacc as [->|[a ->]]; destruct Ht as [->|[r ->]]; simpl; eauto.
    + destruct Hinf as [->|E].
      * left. destruct Ht as [->|[r ->]]; reflexivity.
      * inversion E as [? ? Et|? ? Et]; subst.
        -- left. destruct Hacc as [->|[a ->]]; reflexivity.
        -- right. exact Et.
Qed.

(** C5, as stated, fails: with yield 10 all in the last of three bins
    and [observed = [1, 0, 5]], bin 0 has [expected == 0] and
    [observed > 0], yet the value is [nan], not [+inf]: bin 1, empty and
    unobserved, contributes [0 * log(0) = nan]. *)
Lemma empty_bin_counterexample :
  Np.vecmat [Fin 10] (fin_matrix gap_fractions) = Ok [Fin 0; Fin 0; Fin 10] /\
  Simple.__call__ (Simple.__init__ (gap_data 1 0 5) gap_templates) [Fin 10]
  = Ok NaN /\
  Simple.__call__ (Simple.__init__ (gap_data 1 0 5) gap_templates) [Fin 10]
  <> Ok PInf.
Proof.
  assert (E0 : expected_spec [10] gap_fractions 0 = 0)
    by (unfold expected_spec, Np.entry; simpl; lra).
  assert (E1 : expected_spec [10] gap_fractions 1 = 0)
    by (unfold expected_spec, Np.entry; simpl; lra).
  assert (E2 : expected_spec [10] gap_fractions 2 = 10)
    by (unfold expected_spec, Np.entry; simpl; lra).
  assert (Hcall : Simple.__call__ (Simple.__init__ (gap_data 1 0 5) gap_templates)
                    [Fin 10] = Ok NaN).
  { change (gap_data 1 0 5) with {| bin_counts := map Fin [1; 0; 5] |}.
    change [Fin 10] with (map Fin [10]).
    rewrite (@fin_simple_call gap_templates gap_fractions [1; 0; 5] [10])
      by (repeat constructor).
    unfold bin_terms. cbn [length seq map nth]. rewrite E0, E1, E2.
    rewrite bin_term_empty_observed by lra.
    rewrite bin_term_empty_unobserved. reflexivity. }
  split; [|split].
  - change [Fin 10] with (map Fin [10]).
    rewrite fin_vecmat by (repeat constructor).
    cbn [map seq Np.ncols gap_fractions]. rewrite E0, E1, E2. reflexivity.
  - exact Hcall.
  - rewrite Hcall. discriminate.
Qed.

(** C5, amended.  On finite inputs where every bin either has a positive
    expected yield or is empty with a positive observed count, and some
    bin is of the second kind, the simple cost function returns [+inf]:
    no exception, no finite value.  (An empty bin with nothing observed
    would give [nan], as above.) *)
Theorem empty_bin_infinite (T : CompositeTemplate npfloat) (F : Np.ndarray2 R)
  (obs x : list R) :
  bin_fractions T None = Ok (fin_matrix F) ->
  Np.wf2 F -> Np.nrows F = length x -> Np.ncols F = length obs ->
  (forall i, (i < length obs)%nat ->
     0 < expected_spec x F i \/
     (expected_spec x F i = 0 /\ 0 < nth i obs 0)) ->
  (exists i, (i < length obs)%nat /\
     expected_spec x F i = 0 /\ 0 < nth i obs 0) ->
  Simple.__call__ (Simple.__init__ {| bin_counts := map Fin obs |} T) (map Fin x)
  = Ok PInf.
Proof.
  intros HF Hwf Hr Hc Hall (i & Hi & Hei & Hoi).
  rewrite (@fin_simple_call T F obs x HF Hwf Hr Hc). f_equal.
  unfold Np.sum. apply fold_add_inf.
  - right. exists 0. reflexivity.
  - unfold bin_terms. apply Forall_map, Forall_forall.
    intros k Hk. apply in_seq in Hk.
    destruct (Hall k) as [Hpos|[Hz Ho]]; [lia| |].
    + right. rewrite bin_term_covered by assumption. eauto.
    + left. rewrite Hz. apply bin_term_empty_observed, Ho.
  - right. unfold bin_terms. apply Exists_exists.
    exists (poisson_bin_term (expected_spec x F i) (nth i obs 0)). split.
    + apply in_map_iff. exists i. split; [reflexivity|]. apply in_seq. lia.
    + rewrite Hei. apply bin_term_empty_observed, Hoi.
Qed.

(** The same configuration with every empty bin observed. *)
Lemma empty_bin_infinite_witness :
  Simple.__call__ (Simple.__init__ (gap_data 1 2 5) gap_templates) [Fin 10]
  = Ok PInf.
Proof.
  assert (E0 : expected_spec [10] gap_fractions 0 = 0)
    by (unfold expected_spec, Np.entry; simpl; lra).
  assert (E1 : expected_spec [10] gap_fractions 1 = 0)
    by (unfold expected_spec, Np.entry; simpl; lra).
  assert (E2 : expected_spec [10] gap_fractions 2 = 10)
    by (unfold expected_spec, Np.entry; simpl; lra).
  apply (@empty_bin_infinite gap_templates gap_fractions [1; 2; 5] [10]).
  - reflexivity.
  - repeat constructor.
  - reflexivity.
  - reflexivity.
  - intros [|[|[|i]]] Hi; simpl in Hi; try lia; cbn [nth].
    + right. split; [exact E0|lra].
    + right. split; [exact E1|lra].
    + left. rewrite E2. lra.
  - exists 0%nat. split; [simpl; lia|]. split; [exact E0|simpl; lra].
Defined.

(* ================================================================== *)
(** * Further properties of the Gaussian term *)

Lemma np_sum_cons (a : R) (l : list R) : Np.sum (a :: l) = a + Np.sum l.
Proof.
  unfold Np.sum. cbn [fold_left s_add s_zero R_scalar].
  rewrite (fold_left_Rplus l (0 + a)), (fold_left_Rplus l 0). lra.
Qed.

Lemma sum_zip_scale_l (c : R) (u v : list R) :
  Np.sum (Np.zip_with s_mul (map (Rmult c) u) v) =
  c * Np.sum (Np.zip_with s_mul u v).
Proof.
  revert v. induction u as [|a u IH]; intros [|b v]; cbn [map Np.zip_with];
    try (unfold Np.sum; simpl; lra).
  rewrite !np_sum_cons, IH. cbn [s_mul R_scalar]. ring.
Qed.

Lemma sum_zip_scale_r (c : R) (u v : list R) :
  Np.sum (Np.zip_with s_mul u (map (Rmult c) v)) =
  c * Np.sum (Np.zip_with s_mul u v).
Proof.
  revert v. induction u as [|a u IH]; intros [|b v]; cbn [map Np.zip_with];
    try (unfold Np.sum; simpl; lra).
  rewrite !np_sum_cons, IH. cbn [s_mul R_scalar]. ring.
Qed.

(** [@] is linear in its left operand, shape errors included. *)
Lemma vecmat_scale (c : R) (theta : list R) (B : Np.ndarray2 R) :
  Np.vecmat (map (Rmult c) theta) B =
  (left <- Np.vecmat theta B ;; Ok (map (Rmult c) left)).
Proof.
  unfold Np.vecmat. rewrite length_map.
  destruct (length theta =? Np.nrows B)%nat; [|reflexivity].
  cbn [bind]. f_equal. rewrite map_map. apply map_ext. intros j.
  apply sum_zip_scale_l.
Qed.

Lemma dot_scale (c : R) (u v : list R) :
  Np.dot (map (Rmult c) u) (map (Rmult c) v) =
  (q <- Np.dot u v ;; Ok (c * c * q)).
Proof.
  unfold Np.dot. rewrite !length_map.
  destruct (length u =? length v)%nat; [|reflexivity].
  cbn [bind]. f_equal. rewrite sum_zip_scale_l, sum_zip_scale_r. ring.
Qed.

(** X1.  The Gaussian term is homogeneous of degree two in the nuisance
    part of the input, for any cached matrix: scaling the nuisance
    parameters by [c] scales the term by [c*c], and a call that raises a
    shape error still raises it.  In particular the term is even: it is
    the same at [-theta] and at [theta]. *)
Theorem gauss_term_homogeneous (self : Advanced.t R) (x x' : list R) :
  let n := num_templates (Base._templates (Advanced.base self)) in
  (forall c : R,
     skipn n x' = map (Rmult c) (skipn n x) ->
     Advanced.gauss_term self x' =
     (g <- Advanced.gauss_term self x ;; Ok (c * c * g))) /\
  (skipn n x' = map Ropp (skipn n x) ->
   Advanced.gauss_term self x' = Advanced.gauss_term self x).
Proof.
  intros n.
  assert (Hc : forall c : R,
     skipn n x' = map (Rmult c) (skipn n x) ->
     Advanced.gauss_term self x' =
     (g <- Advanced.gauss_term self x ;; Ok (c * c * g))).
  { intros c Hx. unfold Advanced.gauss_term. fold n. rewrite Hx.
    rewrite vecmat_scale.
    destruct (Np.vecmat (skipn n x) (Advanced._block_diag_inv_corr_mats self))
      as [left|e]; [|reflexivity].
    cbn [bind]. rewrite dot_scale.
    destruct (Np.dot left (skipn n x)) as [q|e]; [|reflexivity].
    cbn [bind]. f_equal. cbn [s_mul s_half R_scalar]. ring. }
  split; [exact Hc|].
  intros Hx. rewrite (Hc (-1)).
  - destruct (Advanced.gauss_term self x) as [g|e]; [|reflexivity].
    cbn [bind]. f_equal. ring.
  - rewrite Hx. apply map_ext. intros a. ring.
Qed.

(** The worked configuration at [theta] and [-theta]. *)
Lemma gauss_term_homogeneous_witness :
  Advanced.gauss_term example_advanced [100; 50; -1; 0; 3; 0; -2; 0] =
  Advanced.gauss_term example_advanced [100; 50; 1; 0; -3; 0; 2; 0].
Proof.
  apply (proj2 (@gauss_term_homogeneous example_advanced
                  [100; 50; 1; 0; -3; 0; 2; 0]
                  [100; 50; -1; 0; 3; 0; -2; 0])).
  cbn [skipn map example_advanced Advanced.base Base.__init__ Base._templates
       num_templates example_templates].
  repeat (f_equal; try lra).
Defined.

(* ================================================================== *)
(** * Data and templates with different numbers of bins *)

Lemma broadcast_raises {A : Type} (f : A -> A -> A) (u v : list A) :
  length u <> length v -> length u <> 1%nat -> length v <> 1%nat ->
  Np.broadcast f u v = Raise ValueError.
Proof.
  intros Huv Hu Hv. unfold Np.broadcast.
  rewrite (proj2 (Nat.eqb_neq _ _) Huv).
  destruct u as [|a [|a' u]]; destruct v as [|b [|b' v]];
    simpl in *; try congruence; reflexivity.
Qed.

Lemma broadcast_stretch_left {A : Type} (f : A -> A -> A) (a : A) (v : list A) :
  length v <> 1%nat -> Np.broadcast f [a] v = Ok (map (f a) v).
Proof.
  intros Hv. unfold Np.broadcast. cbn [length].
  rewrite (proj2 (Nat.eqb_neq 1 (length v))) by congruence. reflexivity.
Qed.

Lemma vecmat_length (v : list R) (m : Np.ndarray2 R) (e : list R) :
  Np.vecmat v m = Ok e -> length e = Np.ncols m.
Proof.
  unfold Np.vecmat. destruct (length v =? Np.nrows m)%nat; intros E; inversion E.
  rewrite length_map, length_seq. reflexivity.
Qed.

Lemma poisson_sum_mismatch (self : Base.t R) (e : list R) :
  let m := length (bin_counts (Base._data self)) in
  m <> length e -> m <> 1%nat -> length e <> 1%nat ->
  Base.poisson_sum self e = Raise ValueError.
Proof.
  intros m Hme Hm He. unfold Base.poisson_sum.
  rewrite broadcast_raises; [reflexivity| | |]; unfold Np.log;
    rewrite ?length_map; assumption.
Qed.

(* ================================================================== *)
(** * Evaluation at the start vector *)

Lemma firstn_exact {A : Type} (u l : list A) (n : nat) :
  length u = n -> firstn n (u ++ l) = u.
Proof.
  revert n. induction u as [|a u IH]; intros [|n] Hn; simpl in *;
    try discriminate; [reflexivity|].
  f_equal. apply IH. lia.
Qed.

Lemma skipn_exact {A : Type} (u l : list A) (n : nat) :
  length u = n -> skipn n (u ++ l) = l.
Proof.
  revert n. induction u as [|a u IH]; intros [|n] Hn; simpl in *;
    try discriminate; [reflexivity|].
  apply IH. lia.
Qed.

(* ================================================================== *)
(** * Distinct parameter names *)

Lemma str_injective (i j : nat) : str i = str j -> i = j.
Proof.
  unfold str. intros E.
  apply (f_equal NilEmpty.uint_of_string) in E.
  rewrite !NilEmpty.usu in E. inversion E as [E'].
  apply (f_equal Nat.of_uint) in E'. rewrite !Unsigned.of_to in E'. exact E'.
Qed.

(** A decimal numeral holds no underscore. *)
Lemma numeral_no_underscore (d : uint) (p q : string) :
  NilEmpty.string_of_uint d <> (p ++ String "_" q)%string.
Proof.
  revert p. induction d; intros [|c p]; cbn [NilEmpty.string_of_uint append];
    try discriminate; intros E; inversion E as [[Ec Et]];
    eapply IHd; exact Et.
Qed.

(** [id + "_" + numeral] determines [id] and the numeral: the numeral
    starts after the last underscore. *)
Lemma suffix_split (a a' : string) (d d' : uint) :
  (a ++ String "_" (NilEmpty.string_of_uint d))%string =
  (a' ++ String "_" (NilEmpty.string_of_uint d'))%string ->
  a = a' /\ NilEmpty.string_of_uint d = NilEmpty.string_of_uint d'.
Proof.
  revert a'. induction a as [|c r IH]; intros [|c' r'] E; cbn [append] in E.
  - inversion E. split; reflexivity.
  - inversion E as [[Ec Et]]. exfalso. exact (numeral_no_underscore _ _ _ Et).
  - inversion E as [[Ec Et]]. exfalso.
    exact (numeral_no_underscore _ _ _ (eq_sym Et)).
  - inversion E as [[Ec Et]]. destruct (IH _ Et) as [Hr Hd].
    split; [f_equal; exact Hr|exact Hd].
Qed.

Lemma theta_name_injective (id id' : string) (i i' : nat) :
  ("theta_" ++ id ++ "_" ++ str i)%string =
  ("theta_" ++ id' ++ "_" ++ str i')%string ->
  id = id' /\ i = i'.
Proof.
  intros E. cbn [append] in E. inversion E as [E'].
  destruct (suffix_split _ _ _ _ E') as [Hid Hs].
  split; [exact Hid|]. apply str_injective. exact Hs.
Qed.

Lemma yield_name_injective (id id' : string) :
  ("yield_" ++ id)%string = ("yield_" ++ id')%string -> id = id'.
Proof. intros E. cbn [append] in E. inversion E. reflexivity. Qed.

Lemma yield_names_nodup (ids : list string) :
  NoDup ids ->
  NoDup (map (fun template => ("yield_" ++ template)%string) ids).
Proof.
  intros Hnd. apply NoDup_map_NoDup_ForallPairs; [|exact Hnd].
  intros y y' _ _. apply yield_name_injective.
Qed.

Lemma theta_names_nodup (b : nat) (ids : list string) :
  NoDup ids ->
  NoDup (concat (map (fun template_name =>
           map (fun i => ("theta_" ++ template_name ++ "_" ++ str i)%string)
               (seq 0 b)) ids)).
Proof.
  induction 1 as [|id ids Hnotin Hnd IH]; cbn [map concat]; [constructor|].
  apply NoDup_app.
  - apply NoDup_map_NoDup_ForallPairs; [|apply seq_NoDup].
    intros i i' _ _ E. apply (theta_name_injective _ _ _ _ E).
  - exact IH.
  - intros s Hs Hs'.
    apply in_map_iff in Hs. destruct Hs as (i & <- & _).
    apply in_concat in Hs'. destruct Hs' as (l & Hl & Hin).
    apply in_map_iff in Hl. destruct Hl as (id' & <- & Hid').
    apply in_map_iff in Hin. destruct Hin as (i' & E & _).
    destruct (theta_name_injective _ _ _ _ E) as [-> _].
    exact (Hnotin Hid').
Qed.

(** X4.  When the template ids are pairwise distinct, so are the
    parameter names of either cost function: no yield name is a theta
    name, and a theta name determines its template and its bin, because
    the bin number follows the last underscore. *)
Theorem param_names_distinct (hdata : Histogram R) (T : CompositeTemplate R) :
  NoDup (template_ids T) ->
  NoDup (Simple.param_names (Simple.__init__ hdata T)) /\
  (forall self, Advanced.__init__ hdata T = Ok self ->
                NoDup (Advanced.param_names self)).
Proof.
  intros Hnd. split.
  - apply yield_names_nodup, Hnd.
  - intros self Hi. unfold Advanced.param_names.
    rewrite (advanced_init_base _ _ Hi). cbn [Base.__init__ Base._templates].
    apply NoDup_app.
    + apply yield_names_nodup, Hnd.
    + apply theta_names_nodup, Hnd.
    + intros s Hs Hs'.
      apply in_map_iff in Hs. destruct Hs as (id & <- & _).
      apply in_concat in Hs'. destruct Hs' as (l & Hl & Hin).
      apply in_map_iff in Hl. destruct Hl as (id' & <- & _).
      apply in_map_iff in Hin. destruct Hin as (i' & E & _).
      cbn [append] in E. discriminate E.
Qed.

(** The names of the worked configuration. *)
Lemma param_names_distinct_witness :
  NoDup (Advanced.param_names example_advanced).
Proof.
  apply (proj2 (@param_names_distinct (example_data 60 45 45) example_templates
                  ltac:(repeat constructor; simpl; intuition discriminate))
               example_advanced).
  reflexivity.
Defined.

(* ================================================================== *)
(** * Finite values, and [nan], of the simple cost function *)

Lemma bin_term_negative (e o : R) : e < 0 -> poisson_bin_term e o = NaN.
Proof.
  intros He. unfold poisson_bin_term, np_log.
  destruct (Rlt_dec 0 e) as [H|_]; [lra|].
  destruct (Rlt_dec e 0) as [_|H]; [|contradiction].
  reflexivity.
Qed.

Lemma np_add_nan_r (a : npfloat) : np_add a NaN = NaN.
Proof. destruct a; reflexivity. Qed.

(** [nan] is absorbing for [np.sum]. *)
Lemma fold_add_nan (ts : list npfloat) (acc : npfloat) :
  acc = NaN \/ In NaN ts -> fold_left np_add ts acc = NaN.
Proof.
  revert acc. induction ts as [|t ts IH]; intros acc [Hacc|Hin].
  - exact Hacc.
  - destruct Hin.
  - cbn [fold_left]. apply IH. left. subst acc. reflexivity.
  - cbn [fold_left]. apply IH. destruct Hin as [->|Hin].
    + left. apply np_add_nan_r.
    + right. exact Hin.
Qed.

(** With every bin covered, all terms are finite, and so is their sum. *)
Lemma bin_terms_covered (e : nat -> R) (obs : list R) (b : nat) :
  (forall i, (i < b)%nat -> 0 < e i) ->
  Np.sum (bin_terms e obs b) = Fin (poisson_spec b e obs).
Proof.
  intros Hpos. unfold bin_terms.
  rewrite map_ext_in with
    (g := fun i => Fin ((fun i => e i - nth i obs 0 * ln (e i)) i)).
  - rewrite <- map_map with (g := Fin), fin_sum. f_equal.
    rewrite np_sum_big_sum, length_map, length_seq.
    unfold poisson_spec. apply big_sum_ext. intros i Hi.
    apply map_seq_nth. exact Hi.
  - intros i Hi. apply in_seq in Hi. apply bin_term_covered, Hpos. lia.
Qed.

(** X5.  On finite inputs, when every bin has a positive expected
    yield, the simple cost function evaluated with numpy's special
    values returns a finite number: the value of the formula over the
    reals.  No infinity and no [nan] arises. *)
Theorem covered_bins_finite (T : CompositeTemplate npfloat) (F : Np.ndarray2 R)
  (obs x : list R) :
  bin_fractions T None = Ok (fin_matrix F) ->
  Np.wf2 F -> Np.nrows F = length x -> Np.ncols F = length obs ->
  (forall i, (i < length obs)%nat -> 0 < expected_spec x F i) ->
  Simple.__call__ (Simple.__init__ {| bin_counts := map Fin obs |} T) (map Fin x)
  = Ok (Fin (poisson_spec (length obs) (expected_spec x F) obs)).
Proof.
  intros HF Hwf Hr Hc Hpos.
  rewrite (@fin_simple_call T F obs x HF Hwf Hr Hc).
  f_equal. apply bin_terms_covered, Hpos.
Qed.

(** X6.  On finite inputs, a single bin with a negative expected yield,
    or an empty bin with a zero count, makes the simple cost function
    return [nan], whatever the other bins hold: [np.log] of a negative
    number and [0 * log(0)] are [nan], and [nan] is absorbing for the
    sum. *)
Theorem uncovered_bin_nan (T : CompositeTemplate npfloat) (F : Np.ndarray2 R)
  (obs x : list R) :
  bin_fractions T None = Ok (fin_matrix F) ->
  Np.wf2 F -> Np.nrows F = length x -> Np.ncols F = length obs ->
  (exists i, (i < length obs)%nat /\
     (expected_spec x F i < 0 \/
      (expected_spec x F i = 0 /\ nth i obs 0 = 0))) ->
  Simple.__call__ (Simple.__init__ {| bin_counts := map Fin obs |} T) (map Fin x)
  = Ok NaN.
Proof.
  intros HF Hwf Hr Hc (i & Hi & Hbad).
  rewrite (@fin_simple_call T F obs x HF Hwf Hr Hc). f_equal.
  unfold Np.sum. apply fold_add_nan. right.
  unfold bin_terms. apply in_map_iff. exists i. split; [|apply in_seq; lia].
  destruct Hbad as [Hneg|[Hz Ho]].
  - apply bin_term_negative, Hneg.
  - rewrite Hz, Ho. apply bin_term_empty_unobserved.
Qed.

Lemma example_expected :
  expected_spec [100; 50] example_fractions 0 = 60 /\
  expected_spec [100; 50] example_fractions 1 = 45 /\
  expected_spec [100; 50] example_fractions 2 = 45.
Proof. unfold expected_spec, Np.entry; simpl. repeat split; lra. Qed.

Lemma example_covered (i : nat) :
  (i < 3)%nat -> 0 < expected_spec [100; 50] example_fractions i.
Proof.
  destruct example_expected as (E0 & E1 & E2).
  destruct i as [|[|[|i]]]; intros Hi; try lia; rewrite ?E0, ?E1, ?E2; lra.
Qed.

(** The worked configuration, all bins covered. *)
Lemma covered_bins_finite_witness :
  Simple.__call__
    (Simple.__init__ {| bin_counts := map Fin [60; 45; 45] |}
                     float_example_templates)
    (map Fin [100; 50]) =
  Ok (Fin (poisson_spec 3 (expected_spec [100; 50] example_fractions)
                        [60; 45; 45])).
Proof.
  apply (@covered_bins_finite float_example_templates example_fractions
           [60; 45; 45] [100; 50]).
  - reflexivity.
  - repeat constructor.
  - reflexivity.
  - reflexivity.
  - exact example_covered.
Defined.

(** A negative yield on the configuration with empty bins. *)
Lemma uncovered_bin_nan_witness :
  Simple.__call__
    (Simple.__init__ {| bin_counts := map Fin [1; 2; 5] |} gap_templates)
    (map Fin [-10]) = Ok NaN.
Proof.
  apply (@uncovered_bin_nan gap_templates gap_fractions [1; 2; 5] [-10]).
  - reflexivity.
  - repeat constructor.
  - reflexivity.
  - reflexivity.
  - exists 2%nat. split; [simpl; lia|]. left.
    unfold expected_spec, Np.entry. simpl. lra.
Defined.

(* ================================================================== *)
(** * No data: the cost is the total yield *)

Lemma all_zero_nth (l : list R) (i : nat) :
  Forall (fun v => v = 0) l -> nth i l 0 = 0.
Proof.
  intros Hz. revert i. induction Hz as [|v l Hv _ IH]; intros [|i]; simpl; auto.
Qed.

(** The expected yields add up to the yields weighted by the row sums of
    the fractions. *)
Lemma expected_total (x : list R) (F : Np.ndarray2 R) (b : nat) :
  big_sum b (expected_spec x F) =
  big_sum (length x) (fun k =>
    nth k x 0 * big_sum b (fun i => Np.entry F k i)).
Proof.
  unfold expected_spec. rewrite big_sum_swap.
  apply big_sum_ext. intros k _. apply big_sum_scal.
Qed.

(** X7.  With all observed counts zero and every bin covered, the
    simple cost function returns the sum of the expected yields; when
    every row of the fractions sums to one, that is the sum of the
    yields passed in. *)
Theorem no_data_total_yield (T : CompositeTemplate npfloat) (F : Np.ndarray2 R)
  (obs x : list R) :
  bin_fractions T None = Ok (fin_matrix F) ->
  Np.wf2 F -> Np.nrows F = length x -> Np.ncols F = length obs ->
  (forall i, (i < length obs)%nat -> 0 < expected_spec x F i) ->
  Forall (fun o => o = 0) obs ->
  Simple.__call__ (Simple.__init__ {| bin_counts := map Fin obs |} T) (map Fin x)
  = Ok (Fin (big_sum (length obs) (expected_spec x F))) /\
  ((forall k, (k < length x)%nat ->
      big_sum (length obs) (fun i => Np.entry F k i) = 1) ->
   Simple.__call__ (Simple.__init__ {| bin_counts := map Fin obs |} T) (map Fin x)
   = Ok (Fin (big_sum (length x) (fun k => nth k x 0)))).
Proof.
  intros HF Hwf Hr Hc Hpos Hz.
  assert (Hcall :
    Simple.__call__ (Simple.__init__ {| bin_counts := map Fin obs |} T) (map Fin x)
    = Ok (Fin (big_sum (length obs) (expected_spec x F)))).
  { rewrite (@fin_simple_call T F obs x HF Hwf Hr Hc).
    rewrite bin_terms_covered by exact Hpos. do 2 f_equal.
    unfold poisson_spec. apply big_sum_ext. intros i _.
    rewrite (all_zero_nth i Hz). lra. }
  split; [exact Hcall|].
  intros Hrows. rewrite Hcall. do 2 f_equal.
  rewrite expected_total. apply big_sum_ext. intros k Hk.
  rewrite (Hrows k Hk). lra.
Qed.

(** The worked configuration against empty data: the cost is 150. *)
Lemma no_data_total_yield_witness :
  Simple.__call__
    (Simple.__init__ {| bin_counts := map Fin [0; 0; 0] |}
                     float_example_templates)
    (map Fin [100; 50]) =
  Ok (Fin (big_sum 2 (fun k => nth k [100; 50] 0))).
Proof.
  apply (proj2 (@no_data_total_yield float_example_templates example_fractions
                  [0; 0; 0] [100; 50]
                  eq_refl
                  ltac:(repeat constructor) eq_refl eq_refl
                  example_covered
                  ltac:(repeat constructor))).
  intros [|[|k]] Hk; simpl in Hk; try lia;
    unfold Np.entry; simpl; lra.
Defined.

(* ================================================================== *)
(** * The advanced cost function with numpy's special values *)

Lemma fin_zeros (c : nat) : Np.zeros (A := npfloat) c = map Fin (Np.zeros c).
Proof.
  unfold Np.zeros. induction c as [|c IH]; cbn [repeat map]; [reflexivity|].
  rewrite IH. reflexivity.
Qed.

Lemma fin_totals (ms : list (Np.ndarray2 R)) :
  Scipy.total_rows (map fin_matrix ms) = Scipy.total_rows ms /\
  Scipy.total_cols (map fin_matrix ms) = Scipy.total_cols ms.
Proof.
  induction ms as [|m ms [IHr IHc]]; [split; reflexivity|].
  cbn [map Scipy.total_rows Scipy.total_cols fold_right fin_matrix
       Np.nrows Np.ncols].
  unfold Scipy.total_rows, Scipy.total_cols in IHr, IHc.
  rewrite IHr, IHc. split; reflexivity.
Qed.

Lemma fin_place_blocks (c w : nat) (ms : list (Np.ndarray2 R)) :
  Scipy.place_blocks c w (map fin_matrix ms) =
  map (map Fin) (Scipy.place_blocks c w ms).
Proof.
  revert c. induction ms as [|m ms IH]; intros c; [reflexivity|].
  cbn [map Scipy.place_blocks fin_matrix Np.rows Np.ncols].
  rewrite map_app, IH, !map_map. f_equal.
  apply map_ext. intros r. rewrite !map_app, !fin_zeros. reflexivity.
Qed.

(** The block matrix of finite blocks is the finite block matrix. *)
Lemma fin_assemble (ms : list (Np.ndarray2 R)) :
  Scipy.assemble (map fin_matrix ms) = fin_matrix (Scipy.assemble ms).
Proof.
  unfold Scipy.assemble.
  destruct (fin_totals ms) as [Hr Hc].
  rewrite Hr, Hc, fin_place_blocks. reflexivity.
Qed.

Lemma all_2d_float_matrices (ms : list (Np.ndarray2 npfloat)) :
  Scipy.all_2d (map Np.Arr2 ms) = Some ms.
Proof. induction ms as [|m ms IH]; simpl; [|rewrite IH]; reflexivity. Qed.

Lemma fin_advanced_init (hdata : Histogram npfloat) (T : CompositeTemplate npfloat)
  (ms : list (Np.ndarray2 R)) :
  inv_corr_mats T = map Np.Arr2 (map fin_matrix ms) -> ms <> [] ->
  Advanced.__init__ hdata T =
  Ok {| Advanced.base := Base.__init__ hdata T;
        Advanced._block_diag_inv_corr_mats := fin_matrix (Scipy.assemble ms) |}.
Proof.
  intros Hm Hne. unfold Advanced.__init__, Base.__init__.
  cbn [Base._templates]. rewrite Hm. unfold Scipy.block_diag.
  destruct ms as [|m ms]; [congruence|].
  cbn [map].
  change (Np.Arr2 (fin_matrix m) :: map Np.Arr2 (map fin_matrix ms))
    with (map Np.Arr2 (map fin_matrix (m :: ms))).
  rewrite all_2d_float_matrices, fin_assemble. reflexivity.
Qed.

Lemma fin_dot (u v : list R) :
  Np.dot (map Fin u) (map Fin v) = (q <- Np.dot u v ;; Ok (Fin q)).
Proof.
  unfold Np.dot. rewrite !length_map.
  destruct (length u =? length v)%nat; [|reflexivity].
  cbn [bind]. rewrite fin_zip_mul, fin_sum. reflexivity.
Qed.

(** Line 194 on finite inputs: a finite Gaussian term. *)
Lemma fin_gauss_term (self : Advanced.t npfloat) (B : Np.ndarray2 R)
  (x : list R) :
  let theta := skipn (num_templates (Base._templates (Advanced.base self))) x in
  Advanced._block_diag_inv_corr_mats self = fin_matrix B ->
  Np.wf2 B -> Np.nrows B = length theta -> Np.ncols B = length theta ->
  Advanced.gauss_term self (map Fin x) = Ok (Fin (gauss_spec theta B)).
Proof.
  intros theta HB Hwf Hr Hc. unfold Advanced.gauss_term.
  rewrite HB, skipn_map. fold theta.
  rewrite fin_vecmat by (auto; lia). cbn [bind].
  rewrite fin_dot.
  pose proof (quad_code_spec theta Hwf Hr Hc) as Hq.
  rewrite vecmat_ok in Hq by (auto; lia). cbn [bind] in Hq.
  rewrite Hq. reflexivity.
Qed.

(** Lines 184 to 192 on finite inputs: the sum of the bin terms. *)
Lemma fin_poisson_term (self : Advanced.t npfloat) (F : Np.ndarray2 R)
  (obs x : list R) :
  let T := Base._templates (Advanced.base self) in
  let n := num_templates T in
  bin_fractions T (Some (map Fin (skipn n x))) = Ok (fin_matrix F) ->
  bin_counts (Base._data (Advanced.base self)) = map Fin obs ->
  Np.wf2 F -> Np.nrows F = length (firstn n x) -> Np.ncols F = length obs ->
  Advanced.poisson_term self (map Fin x) =
  Ok (Np.sum (bin_terms (expected_spec (firstn n x) F) obs (length obs))).
Proof.
  intros T n HF Hd Hwf Hr Hc. unfold Advanced.poisson_term. fold T. fold n.
  rewrite skipn_map, firstn_map, HF. cbn [bind].
  rewrite fin_vecmat by (auto; lia). cbn [bind].
  rewrite Hc. apply fin_poisson_sum; [exact Hd|reflexivity].
Qed.

(** The advanced cost function on finite inputs: the sum of the bin
    terms plus a finite Gaussian term. *)
Lemma fin_advanced_call (T : CompositeTemplate npfloat)
  (ms : list (Np.ndarray2 R)) (F : Np.ndarray2 R) (obs x : list R) :
  let n := num_templates T in
  let b := num_bins T in
  inv_corr_mats T = map Np.Arr2 (map fin_matrix ms) ->
  Forall (fun m => Np.wf2 m /\ Np.nrows m = b /\ Np.ncols m = b) ms ->
  length ms = n -> (0 < n)%nat ->
  length x = (n + n * b)%nat -> length obs = b ->
  bin_fractions T (Some (map Fin (skipn n x))) = Ok (fin_matrix F) ->
  Np.wf2 F -> Np.nrows F = n -> Np.ncols F = b ->
  exists self,
    Advanced.__init__ {| bin_counts := map Fin obs |} T = Ok self /\
    Advanced.__call__ self (map Fin x) =
    Ok (np_add (Np.sum (bin_terms (expected_spec (firstn n x) F) obs b))
               (Fin (gauss_spec (skipn n x) (Scipy.assemble ms)))).
Proof.
  intros n b Hm Hu Hl Hn Hx Ho HF Hwf Hr Hc.
  assert (Hne : ms <> []) by (intros E; subst ms; simpl in Hl; lia).
  destruct (uniform_totals Hu) as [Tr Tc].
  eexists. split; [apply fin_advanced_init; eassumption|].
  unfold Advanced.__call__.
  rewrite (@fin_poisson_term _ F obs x);
    cbn [Advanced.base Base.__init__ Base._templates Base._data];
    fold n; try assumption; try reflexivity;
    [|rewrite length_firstn; lia|lia].
  cbn [bind].
  rewrite (@fin_gauss_term _ (Scipy.assemble ms) x);
    cbn [Advanced.base Advanced._block_diag_inv_corr_mats
         Base.__init__ Base._templates Scipy.assemble Np.nrows Np.ncols];
    fold n; try reflexivity.
  - cbn [bind]. rewrite Ho. reflexivity.
  - apply block_diag_wf. eapply uniform_wf, Hu.
  - rewrite Tr, Hl, length_skipn. fold b. lia.
  - rewrite Tc, Hl, length_skipn. fold b. lia.
Qed.

Lemma bin_terms_infinite (e : nat -> R) (obs : list R) (b : nat) :
  (forall i, (i < b)%nat -> 0 < e i \/ (e i = 0 /\ 0 < nth i obs 0)) ->
  (exists i, (i < b)%nat /\ e i = 0 /\ 0 < nth i obs 0) ->
  Np.sum (bin_terms e obs b) = PInf.
Proof.
  intros Hall (i & Hi & Hei & Hoi). unfold Np.sum. apply fold_add_inf.
  - right. exists 0. reflexivity.
  - unfold bin_terms. apply Forall_map, Forall_forall.
    intros k Hk. apply in_seq in Hk.
    destruct (Hall k) as [Hpos|[Hz Ho]]; [lia| |].
    + right. rewrite bin_term_covered by assumption. eauto.
    + left. rewrite Hz. apply bin_term_empty_observed, Ho.
  - right. unfold bin_terms. apply Exists_exists.
    exists (poisson_bin_term (e i) (nth i obs 0)). split.
    + apply in_map_iff. exists i. split; [reflexivity|]. apply in_seq. lia.
    + rewrite Hei. apply bin_term_empty_observed, Hoi.
Qed.

Lemma bin_terms_nan (e : nat -> R) (obs : list R) (b : nat) :
  (exists i, (i < b)%nat /\ (e i < 0 \/ (e i = 0 /\ nth i obs 0 = 0))) ->
  Np.sum (bin_terms e obs b) = NaN.
Proof.
  intros (i & Hi & Hbad). unfold Np.sum. apply fold_add_nan. right.
  unfold bin_terms. apply in_map_iff. exists i. split; [|apply in_seq; lia].
  destruct Hbad as [Hneg|[Hz Ho]].
  - apply bin_term_negative, Hneg.
  - rewrite Hz, Ho. apply bin_term_empty_unobserved.
Qed.

(** X8.  On finite inputs of the sizes of the data model, when every
    bin has a positive expected yield at the adjusted fractions, the
    advanced cost function evaluated with numpy's special values returns
    a finite number: the Poisson sum plus the Gaussian term, as over the
    reals. *)
Theorem advanced_covered_finite (T : CompositeTemplate npfloat)
  (ms : list (Np.ndarray2 R)) (F : Np.ndarray2 R) (obs x : list R) :
  let n := num_templates T in
  let b := num_bins T in
  inv_corr_mats T = map Np.Arr2 (map fin_matrix ms) ->
  Forall (fun m => Np.wf2 m /\ Np.nrows m = b /\ Np.ncols m = b) ms ->
  length ms = n -> (0 < n)%nat ->
  length x = (n + n * b)%nat -> length obs = b ->
  bin_fractions T (Some (map Fin (skipn n x))) = Ok (fin_matrix F) ->
  Np.wf2 F -> Np.nrows F = n -> Np.ncols F = b ->
  (forall i, (i < b)%nat -> 0 < expected_spec (firstn n x) F i) ->
  exists self,
    Advanced.__init__ {| bin_counts := map Fin obs |} T = Ok self /\
    Advanced.__call__ self (map Fin x) =
    Ok (Fin (poisson_spec b (expected_spec (firstn n x) F) obs
             + gauss_spec (skipn n x) (Scipy.assemble ms))).
Proof.
  intros n b Hm Hu Hl Hn Hx Ho HF Hwf Hr Hc Hpos.
  destruct (@fin_advanced_call T ms F obs x Hm Hu Hl Hn Hx Ho HF Hwf Hr Hc)
    as (self & Hi & Hcall).
  exists self. split; [exact Hi|].
  rewrite Hcall. fold n b. rewrite bin_terms_covered by exact Hpos.
  reflexivity.
Qed.

(** X9.  The Gaussian term, finite on finite inputs, never repairs an
    uncovered bin: the advanced cost function returns [+inf] when some
    bin is empty with a positive count and every other bin is covered or
    of the same kind, and [nan] as soon as one bin has a negative
    expected yield or is empty with a zero count. *)
Theorem advanced_uncovered_bins (T : CompositeTemplate npfloat)
  (ms : list (Np.ndarray2 R)) (F : Np.ndarray2 R) (obs x : list R) :
  let n := num_templates T in
  let b := num_bins T in
  let e := expected_spec (firstn n x) F in
  inv_corr_mats T = map Np.Arr2 (map fin_matrix ms) ->
  Forall (fun m => Np.wf2 m /\ Np.nrows m = b /\ Np.ncols m = b) ms ->
  length ms = n -> (0 < n)%nat ->
  length x = (n + n * b)%nat -> length obs = b ->
  bin_fractions T (Some (map Fin (skipn n x))) = Ok (fin_matrix F) ->
  Np.wf2 F -> Np.nrows F = n -> Np.ncols F = b ->
  exists self,
    Advanced.__init__ {| bin_counts := map Fin obs |} T = Ok self /\
    ((forall i, (i < b)%nat -> 0 < e i \/ (e i = 0 /\ 0 < nth i obs 0)) ->
     (exists i, (i < b)%nat /\ e i = 0 /\ 0 < nth i obs 0) ->
     Advanced.__call__ self (map Fin x) = Ok PInf) /\
    ((exists i, (i < b)%nat /\ (e i < 0 \/ (e i = 0 /\ nth i obs 0 = 0))) ->
     Advanced.__call__ self (map Fin x) = Ok NaN).
Proof.
  intros n b e Hm Hu Hl Hn Hx Ho HF Hwf Hr Hc.
  destruct (@fin_advanced_call T ms F obs x Hm Hu Hl Hn Hx Ho HF Hwf Hr Hc)
    as (self & Hi & Hcall).
  exists self. split; [exact Hi|]. split.
  - intros Hall Hex. rewrite Hcall. fold n b e.
    rewrite bin_terms_infinite by assumption. reflexivity.
  - intros Hbad. rewrite Hcall. fold n b e.
    rewrite bin_terms_nan by assumption. reflexivity.
Qed.

Lemma identity3_shape :
  Np.wf2 identity3 /\ Np.nrows identity3 = 3%nat /\ Np.ncols identity3 = 3%nat.
Proof. repeat constructor. Qed.

(** The worked configuration with non-zero nuisance parameters. *)
Lemma advanced_covered_finite_witness :
  exists self,
    Advanced.__init__ {| bin_counts := map Fin [60; 45; 45] |}
                      float_example_templates = Ok self /\
    Advanced.__call__ self (map Fin [100; 50; 1; 0; 0; 0; 2; 0]) =
    Ok (Fin (poisson_spec 3 (expected_spec [100; 50] example_fractions)
                          [60; 45; 45]
             + gauss_spec [1; 0; 0; 0; 2; 0]
                          (Scipy.assemble [identity3; identity3]))).
Proof.
  apply (@advanced_covered_finite float_example_templates
           [identity3; identity3] example_fractions [60; 45; 45]
           [100; 50; 1; 0; 0; 0; 2; 0]).
  - reflexivity.
  - apply Forall_cons; [exact identity3_shape|].
    apply Forall_cons; [exact identity3_shape|apply Forall_nil].
  - reflexivity.
  - simpl. lia.
  - reflexivity.
  - reflexivity.
  - reflexivity.
  - repeat constructor.
  - reflexivity.
  - reflexivity.
  - exact example_covered.
Defined.

Lemma gap_expected :
  expected_spec [10] gap_fractions 0 = 0 /\
  expected_spec [10] gap_fractions 1 = 0 /\
  expected_spec [10] gap_fractions 2 = 10.
Proof. unfold expected_spec, Np.entry; simpl. repeat split; lra. Qed.

(** The configuration with empty bins, every empty bin observed. *)
Lemma advanced_uncovered_bins_witness :
  exists self,
    Advanced.__init__ {| bin_counts := map Fin [1; 2; 5] |} gap_templates
    = Ok self /\
    Advanced.__call__ self (map Fin [10; 0; 0; 0]) = Ok PInf.
Proof.
  destruct gap_expected as (E0 & E1 & E2).
  destruct (@advanced_uncovered_bins gap_templates [identity3] gap_fractions
              [1; 2; 5] [10; 0; 0; 0])
    as (self & Hi & Hinf & _);
    try reflexivity.
  - apply Forall_cons; [exact identity3_shape|apply Forall_nil].
  - simpl. lia.
  - repeat constructor.
  - exists self. split; [exact Hi|]. apply Hinf.
    + intros [|[|[|i]]] Hb; simpl in Hb; try lia;
        cbn [firstn nth num_templates gap_templates].
      * right. split; [exact E0|lra].
      * right. split; [exact E1|lra].
      * left. rewrite E2. lra.
    + exists 0%nat. split; [simpl; lia|].
      cbn [firstn nth]. split; [exact E0|lra].
Defined.

(* ================================================================== *)
(** * The histogram plot: least bin width and axis label *)

Lemma fold_min_least (rest : list R) (a : R) :
  let least := fold_left (fun least w => if Rlt_dec w least then w else least)
                         rest a in
  In least (a :: rest) /\ forall w, In w (a :: rest) -> least <= w.
Proof.
  revert a. induction rest as [|w rest IH]; intros a; cbn [fold_left].
  - split; [left; reflexivity|]. intros w [<-|[]]. lra.
  - destruct (IH (if Rlt_dec w a then w else a)) as [Hin Hle].
    split.
    + destruct Hin as [E|Hin]; [|right; right; exact Hin].
      rewrite <- E. destruct (Rlt_dec w a); [right; left|left]; reflexivity.
    + intros w' Hw'.
      assert (Hstep : (if Rlt_dec w a then w else a) <= a /\
                      (if Rlt_dec w a then w else a) <= w)
        by (destruct (Rlt_dec w a); lra).
      pose proof (Hle _ (or_introl eq_refl)) as Hfirst.
      destruct Hw' as [<-|[<-|Hw']]; [lra|lra|].
      apply Hle. right. exact Hw'.
Qed.

(** The accessors on a binning of one dimension, and on any other. *)
Lemma sole_dimension_cases {A : Type} (self : HistogramPlot.t)
  (attr : HistogramPlot.Binning -> list A) :
  match HistogramPlot.binning self with
  | None =>
      HistogramPlot.sole_dimension self attr
      = HistogramPlot.Raises HistogramPlot.AttributeError
  | Some b =>
      match attr b with
      | [a] => HistogramPlot.sole_dimension self attr = HistogramPlot.Returns a
      | _ => HistogramPlot.sole_dimension self attr
             = HistogramPlot.Raises HistogramPlot.AssertionError
      end
  end.
Proof.
  unfold HistogramPlot.sole_dimension, HistogramPlot.binning_attr.
  destruct (HistogramPlot.binning self) as [b|]; [|reflexivity].
  cbn [HistogramPlot.and_then].
  destruct (attr b) as [|a [|a' l]]; reflexivity.
Qed.

(** X10.  [minimal_bin_width] returns a width of the common binning that
    is no larger than any other.  It raises [AttributeError] while the
    plot has no common binning, [AssertionError] unless the binning has
    exactly one dimension, and [ValueError] when that dimension has no
    bin; the index after the assertion never fails. *)
Theorem minimal_bin_width_least (self : HistogramPlot.t) :
  match HistogramPlot.binning self with
  | None =>
      HistogramPlot.minimal_bin_width self
      = HistogramPlot.Raises HistogramPlot.AttributeError
  | Some b =>
      match HistogramPlot.bin_widths b with
      | [[]] =>
          HistogramPlot.minimal_bin_width self
          = HistogramPlot.Raises HistogramPlot.ValueError
      | [ws] =>
          exists w,
            HistogramPlot.minimal_bin_width self = HistogramPlot.Returns w /\
            In w ws /\ forall w', In w' ws -> w <= w'
      | _ =>
          HistogramPlot.minimal_bin_width self
          = HistogramPlot.Raises HistogramPlot.AssertionError
      end
  end.
Proof.
  unfold HistogramPlot.minimal_bin_width, HistogramPlot.prop_bin_widths.
  pose proof (sole_dimension_cases self HistogramPlot.bin_widths) as H.
  destruct (HistogramPlot.binning self) as [b|];
    [|rewrite H; reflexivity].
  destruct (HistogramPlot.bin_widths b) as [|ws l];
    [rewrite H; reflexivity|].
  destruct ws as [|a rest]; destruct l as [|ws' l]; rewrite H;
    try reflexivity.
  cbn [HistogramPlot.and_then HistogramPlot.py_min].
  eexists. split; [reflexivity|]. apply fold_min_least.
Qed.

(** The example plot: the least of 0.5, 0.25 and 1. *)
Lemma minimal_bin_width_least_witness :
  exists w,
    HistogramPlot.minimal_bin_width example_plot = HistogramPlot.Returns w /\
    In w [0.5; 0.25; 1] /\ forall w', In w' [0.5; 0.25; 1] -> w <= w'.
Proof. exact (minimal_bin_width_least example_plot). Defined.

Lemma minimal_bin_width_returns (self : HistogramPlot.t) (ws : list R) :
  HistogramPlot.has_bin_widths self ws -> ws <> [] ->
  exists w,
    HistogramPlot.minimal_bin_width self = HistogramPlot.Returns w /\
    In w ws /\ forall w', In w' ws -> w <= w'.
Proof.
  intros (b & Hb & Hws) Hne.
  unfold HistogramPlot.minimal_bin_width, HistogramPlot.prop_bin_widths.
  pose proof (sole_dimension_cases self HistogramPlot.bin_widths) as H.
  rewrite Hb, Hws in H. rewrite H. cbn [HistogramPlot.and_then].
  destruct ws as [|a rest]; [congruence|].
  eexists. split; [reflexivity|]. apply fold_min_least.
Qed.

Lemma minimal_bin_width_raises (self : HistogramPlot.t) :
  ~ (exists ws, HistogramPlot.has_bin_widths self ws /\ ws <> []) ->
  exists err, HistogramPlot.minimal_bin_width self = HistogramPlot.Raises err.
Proof.
  intros Hno.
  unfold HistogramPlot.minimal_bin_width, HistogramPlot.prop_bin_widths.
  pose proof (sole_dimension_cases self HistogramPlot.bin_widths) as H.
  destruct (HistogramPlot.binning self) as [b|] eqn:Hb;
    [|rewrite H; eexists; reflexivity].
  destruct (HistogramPlot.bin_widths b) as [|ws l] eqn:Hws;
    [rewrite H; eexists; reflexivity|].
  destruct l as [|ws' l]; [|rewrite H; eexists; reflexivity].
  rewrite H. cbn [HistogramPlot.and_then].
  destruct ws as [|a rest]; [eexists; reflexivity|].
  exfalso. apply Hno. exists (a :: rest). split; [|discriminate].
  exists b. split; [exact Hb|exact Hws].
Qed.

(** X11.  The y-axis label needs the binning only for a count per bin
    width: [_get_y_label] raises exactly when the plot is neither normed
    nor on a log scale and the common binning is missing, not
    one-dimensional, or without bins.  When it is built from the bin
    width, the width printed is the least bin width, followed by the
    unit after a space if the unit is a non-empty string. *)
Theorem y_label_needs_binning (format_2g : R -> string) (self : HistogramPlot.t)
  (normed : bool) (evts_or_cands : string) :
  let label := HistogramPlot._get_y_label format_2g self normed evts_or_cands in
  let u := HistogramPlot.unit (HistogramPlot._variable self) in
  ((exists err, label = HistogramPlot.Raises err) <->
   normed = false /\
   HistogramPlot.use_log_scale (HistogramPlot._variable self) = false /\
   ~ (exists ws, HistogramPlot.has_bin_widths self ws /\ ws <> [])) /\
  (forall ws,
     normed = false ->
     HistogramPlot.use_log_scale (HistogramPlot._variable self) = false ->
     HistogramPlot.has_bin_widths self ws -> ws <> [] ->
     exists w,
       In w ws /\ (forall w', In w' ws -> w <= w') /\
       label =
       HistogramPlot.Returns
         (evts_or_cands ++ " / (" ++ format_2g w
          ++ (if HistogramPlot.truthy u
              then " " ++ HistogramPlot.unit_text u else "")
          ++ ")")%string).
Proof.
  intros label u. subst label u. unfold HistogramPlot._get_y_label. split.
  - split.
    + intros [err Herr].
      destruct normed; [discriminate Herr|].
      destruct (HistogramPlot.use_log_scale (HistogramPlot._variable self));
        [discriminate Herr|].
      split; [reflexivity|]. split; [reflexivity|].
      intros (ws & Hh & Hne).
      destruct (minimal_bin_width_returns Hh Hne) as (w & Hw & _).
      rewrite Hw in Herr. discriminate Herr.
    + intros (-> & -> & Hno).
      destruct (minimal_bin_width_raises Hno) as [err E].
      rewrite E. exists err. reflexivity.
  - intros ws -> -> Hh Hne.
    destruct (minimal_bin_width_returns Hh Hne) as (w & Hw & Hin & Hle).
    exists w. split; [exact Hin|]. split; [exact Hle|].
    rewrite Hw. reflexivity.
Qed.

(** The label of the example plot, in GeV. *)
Lemma y_label_needs_binning_witness :
  exists w,
    In w [0.5; 0.25; 1] /\ (forall w', In w' [0.5; 0.25; 1] -> w <= w') /\
    HistogramPlot._get_y_label fixed_format example_plot false "Events" =
    HistogramPlot.Returns "Events / (0.25 GeV)"%string.
Proof.
  apply (proj2 (y_label_needs_binning fixed_format example_plot false "Events")
               [0.5; 0.25; 1]); try reflexivity.
  - eexists. split; reflexivity.
  - discriminate.
Defined.

(* ================================================================== *)
(** * Uncorrelated bins: the penalty is half the sum of squares *)

Lemma identity_matrix_shape (b : nat) :
  Np.wf2 (identity_matrix b) /\
  Np.nrows (identity_matrix b) = b /\ Np.ncols (identity_matrix b) = b.
Proof.
  split; [|split; reflexivity]. split; cbn [identity_matrix Np.rows Np.nrows Np.ncols].
  - rewrite length_map, length_seq. reflexivity.
  - apply Forall_map, Forall_forall. intros i _.
    rewrite length_map, length_seq. reflexivity.
Qed.

Lemma identity_matrix_entry (b i j : nat) :
  (i < b)%nat -> (j < b)%nat -> Np.entry (identity_matrix b) i j = unit_at i j.
Proof.
  intros Hi Hj. unfold Np.entry. cbn [identity_matrix Np.rows].
  rewrite (nth_map_in_range _ _ O) by (rewrite length_seq; lia).
  rewrite seq_nth by lia. cbn [Nat.add].
  apply map_seq_nth. exact Hj.
Qed.

Lemma quadratic_form_identity (v : list R) (b : nat) :
  length v = b ->
  quadratic_form v (identity_matrix b) =
  big_sum b (fun i => nth i v 0 * nth i v 0).
Proof.
  intros Hb. unfold quadratic_form. rewrite Hb.
  apply big_sum_ext. intros i Hi.
  rewrite <- (big_sum_delta (fun j => nth i v 0 * nth j v 0) Hi).
  apply big_sum_ext. intros j Hj.
  rewrite identity_matrix_entry by assumption. ring.
Qed.

Lemma repeat_nth_in_range {A : Type} (a d : A) (n t : nat) :
  (t < n)%nat -> nth t (repeat a n) d = a.
Proof.
  revert t. induction n as [|n IH]; intros [|t] Ht; simpl; try lia; auto.
  apply IH. lia.
Qed.

(** X12.  When every template's inverse correlation matrix is the
    identity (uncorrelated bin uncertainties), the Gaussian term is half
    the sum of the squares of the nuisance parameters. *)
Theorem uncorrelated_penalty (hdata : Histogram R) (T : CompositeTemplate R)
  (x : list R) :
  let n := num_templates T in
  let b := num_bins T in
  inv_corr_mats T = map Np.Arr2 (repeat (identity_matrix b) n) ->
  (0 < n)%nat -> length x = (n + n * b)%nat ->
  exists self,
    Advanced.__init__ hdata T = Ok self /\
    Advanced.gauss_term self x =
    Ok (0.5 * big_sum (n * b) (fun k =>
                nth k (skipn n x) 0 * nth k (skipn n x) 0)).
Proof.
  intros n b Hm Hn Hx.
  set (ms := repeat (identity_matrix b) n) in *.
  assert (Hl : length ms = n) by apply repeat_length.
  assert (Hu : Forall (fun m => Np.wf2 m /\ Np.nrows m = b /\ Np.ncols m = b) ms).
  { apply Forall_forall. intros m Hin. apply repeat_spec in Hin. subst m.
    apply identity_matrix_shape. }
  assert (Hs : inv_corr_shape T ms) by (split; [exact Hm|split; assumption]).
  pose proof (inv_corr_shape_nonempty Hs Hn) as Hne.
  destruct (cache_shape Hs) as (Bwf & Br & Bc).
  eexists. split; [apply advanced_init_matrices; eassumption|].
  rewrite gauss_term_ok;
    cbn [Advanced.base Advanced._block_diag_inv_corr_mats
         Base.__init__ Base._templates];
    try assumption; try (fold n; fold b; lengths).
  unfold gauss_spec. fold n. do 2 f_equal.
  rewrite (@quadratic_form_blocks b) by (auto; rewrite Hl; lengths).
  rewrite Hl, big_sum_blocks. apply big_sum_ext. intros t Ht.
  unfold ms. rewrite (repeat_nth_in_range _ empty_matrix Ht).
  assert (Hlen : length (template_slice b (skipn n x) t) = b)
    by (apply template_slice_length; rewrite length_skipn; nia).
  rewrite (@quadratic_form_identity _ b Hlen).
  apply big_sum_ext. intros r Hr.
  rewrite template_slice_nth by assumption. reflexivity.
Qed.

(** The worked configuration: 0.5 * (1 + 9 + 4). *)
Lemma uncorrelated_penalty_witness :
  exists self,
    Advanced.__init__ (example_data 60 45 45) example_templates = Ok self /\
    Advanced.gauss_term self [100; 50; 1; 0; -3; 0; 2; 0] =
    Ok (0.5 * big_sum 6 (fun k =>
                nth k [1; 0; -3; 0; 2; 0] 0 * nth k [1; 0; -3; 0; 2; 0] 0)).
Proof.
  apply (@uncorrelated_penalty (example_data 60 45 45) example_templates
           [100; 50; 1; 0; -3; 0; 2; 0]).
  - cbn [inv_corr_mats example_templates num_bins num_templates repeat map].
    unfold identity3, identity_matrix, unit_at. cbn [seq map Nat.eqb].
    reflexivity.
  - simpl. lia.
  - reflexivity.
Defined.

(* ================================================================== *)
(** * The values of the two cost functions *)

(** C2.  On an input [x] of length [n_templates], the simple cost
    function returns exactly
    [sum_i (expected[i] - observed[i] * log(expected[i]))] in numpy's
    arithmetic, where [expected] is [x] times the matrix
    [bin_fractions()] returns without a nuisance argument; when every
    expected yield is positive this is the finite value of the formula.
    In the two-template, three-bin configuration with yields [100, 50]
    the expected yields are [60, 45, 45], and the value is the formula
    at those numbers, whatever is observed. *)
Theorem simple_call_formula :
  (forall (T : CompositeTemplate npfloat) (F : Np.ndarray2 R)
          (obs x : list R),
      bin_fractions T None = Ok (fin_matrix F) ->
      Np.wf2 F -> Np.nrows F = num_templates T -> Np.ncols F = num_bins T ->
      length obs = num_bins T -> length x = num_templates T ->
      Simple.__call__ (Simple.__init__ {| bin_counts := map Fin obs |} T)
                      (map Fin x) =
      Ok (Np.sum (bin_terms (expected_spec x F) obs (num_bins T))) /\
      ((forall i, (i < num_bins T)%nat -> 0 < expected_spec x F i) ->
       Simple.__call__ (Simple.__init__ {| bin_counts := map Fin obs |} T)
                       (map Fin x) =
       Ok (Fin (poisson_spec (num_bins T) (expected_spec x F) obs))))
  /\ Np.vecmat (map Fin [100; 50]) (fin_matrix example_fractions)
     = Ok (map Fin [60; 45; 45])
  /\ (forall o0 o1 o2 : R,
        Simple.__call__
          (Simple.__init__ {| bin_counts := map Fin [o0; o1; o2] |}
                           float_example_templates)
          (map Fin [100; 50]) =
        Ok (Fin ((60 - o0 * ln 60) + (45 - o1 * ln 45) + (45 - o2 * ln 45)))).
Proof.
  assert (G : forall (T : CompositeTemplate npfloat) (F : Np.ndarray2 R)
          (obs x : list R),
      bin_fractions T None = Ok (fin_matrix F) ->
      Np.wf2 F -> Np.nrows F = num_templates T -> Np.ncols F = num_bins T ->
      length obs = num_bins T -> length x = num_templates T ->
      Simple.__call__ (Simple.__init__ {| bin_counts := map Fin obs |} T)
                      (map Fin x) =
      Ok (Np.sum (bin_terms (expected_spec x F) obs (num_bins T))) /\
      ((forall i, (i < num_bins T)%nat -> 0 < expected_spec x F i) ->
       Simple.__call__ (Simple.__init__ {| bin_counts := map Fin obs |} T)
                       (map Fin x) =
       Ok (Fin (poisson_spec (num_bins T) (expected_spec x F) obs)))).
  { intros T F obs x HF Hwf Hr Hc Ho Hx.
    assert (Hcall :
      Simple.__call__ (Simple.__init__ {| bin_counts := map Fin obs |} T)
                      (map Fin x) =
      Ok (Np.sum (bin_terms (expected_spec x F) obs (num_bins T)))).
    { rewrite (@fin_simple_call T F obs x HF Hwf) by lia.
      rewrite Ho. reflexivity. }
    split; [exact Hcall|].
    intros Hpos. rewrite Hcall, bin_terms_covered by exact Hpos.
    reflexivity. }
  destruct example_expected as (E0 & E1 & E2).
  split; [exact G|split].
  - rewrite fin_vecmat by (repeat constructor).
    cbn [map seq Np.ncols example_fractions].
    rewrite E0, E1, E2. reflexivity.
  - intros o0 o1 o2.
    destruct (G float_example_templates example_fractions [o0; o1; o2]
                [100; 50]) as [_ Hfin]; try reflexivity;
      [repeat constructor|].
    rewrite Hfin by exact example_covered.
    do 2 f_equal. unfold poisson_spec.
    cbn [num_bins float_example_templates big_sum nth].
    rewrite E0, E1, E2. lra.
Qed.

(** The worked example with [observed = [60, 45, 45]]. *)
Lemma simple_call_formula_witness :
  Simple.__call__
    (Simple.__init__ {| bin_counts := map Fin [60; 45; 45] |}
                     responsive_templates)
    (map Fin [100; 50]) =
  Ok (Fin (poisson_spec 3 (expected_spec [100; 50] example_fractions)
                        [60; 45; 45])).
Proof.
  destruct (proj1 simple_call_formula responsive_templates example_fractions
              [60; 45; 45] [100; 50]) as [_ Hfin]; try reflexivity.
  - repeat constructor.
  - apply Hfin. exact example_covered.
Defined.

(** C1.  For a collection of [n_templates] templates (at least one) and
    an input [x] of length [n_templates + n_templates*n_bins], the
    advanced cost function takes [poi = x[:n_templates]] and
    [nuiss_params = x[n_templates:]], asks [bin_fractions] for the
    fractions at [nuiss_params], and returns, in numpy's arithmetic, the
    Poisson sum over [expected = poi @ fractions] plus
    [0.5 * nuiss_params^T . cache . nuiss_params], the cache being the
    block-diagonal matrix of the inverse correlation matrices; when
    every expected yield is positive this is the finite value of the
    formula. *)
Theorem advanced_call_formula (T : CompositeTemplate npfloat)
  (ms : list (Np.ndarray2 R)) (F : Np.ndarray2 R) (obs x : list R) :
  let n := num_templates T in
  let b := num_bins T in
  let poi := firstn n x in
  let nuiss_params := skipn n x in
  inv_corr_mats T = map Np.Arr2 (map fin_matrix ms) ->
  Forall (fun m => Np.wf2 m /\ Np.nrows m = b /\ Np.ncols m = b) ms ->
  length ms = n -> (0 < n)%nat ->
  length obs = b -> length x = (n + n * b)%nat ->
  bin_fractions T (Some (map Fin nuiss_params)) = Ok (fin_matrix F) ->
  Np.wf2 F -> Np.nrows F = n -> Np.ncols F = b ->
  exists self,
    Advanced.__init__ {| bin_counts := map Fin obs |} T = Ok self /\
    Advanced._block_diag_inv_corr_mats self = fin_matrix (Scipy.assemble ms) /\
    Advanced.__call__ self (map Fin x) =
    Ok (np_add (Np.sum (bin_terms (expected_spec poi F) obs b))
               (Fin (gauss_spec nuiss_params (Scipy.assemble ms)))) /\
    ((forall i, (i < b)%nat -> 0 < expected_spec poi F i) ->
     Advanced.__call__ self (map Fin x) =
     Ok (Fin (poisson_spec b (expected_spec poi F) obs
              + gauss_spec nuiss_params (Scipy.assemble ms)))).
Proof.
  intros n b poi theta Hm Hu Hl Hn Ho Hx HF Hwf Hr Hc.
  assert (Hne : ms <> []) by (intros E; subst ms; simpl in Hl; lia).
  pose proof (@fin_advanced_init {| bin_counts := map Fin obs |} T ms Hm Hne)
    as Hinit.
  destruct (@fin_advanced_call T ms F obs x Hm Hu Hl Hn Hx Ho HF Hwf Hr Hc)
    as (self & Hi & Hcall).
  rewrite Hinit in Hi. inversion Hi as [Hself].
  exists self. rewrite <- Hself.
  split; [exact Hinit|]. split; [reflexivity|].
  rewrite Hself. split; [exact Hcall|].
  intros Hpos. rewrite Hcall. fold n b poi.
  rewrite bin_terms_covered by exact Hpos. reflexivity.
Qed.

Lemma adjusted_expected :
  expected_spec [100; 50] (adjusted_fractions [1; 0; 0; 0; 2; 0]) 0 = 65 /\
  expected_spec [100; 50] (adjusted_fractions [1; 0; 0; 0; 2; 0]) 1 = 48 /\
  expected_spec [100; 50] (adjusted_fractions [1; 0; 0; 0; 2; 0]) 2 = 45.
Proof. unfold expected_spec, Np.entry; simpl. repeat split; lra. Qed.

Lemma adjusted_covered (i : nat) :
  (i < 3)%nat ->
  0 < expected_spec [100; 50] (adjusted_fractions [1; 0; 0; 0; 2; 0]) i.
Proof.
  destruct adjusted_expected as (E0 & E1 & E2).
  destruct i as [|[|[|i]]]; intros Hi; try lia; rewrite ?E0, ?E1, ?E2; lra.
Qed.

(** The configuration whose fractions follow the nuisance parameters, at
    non-zero nuisance parameters. *)
Lemma advanced_call_formula_witness :
  exists self,
    Advanced.__init__ {| bin_counts := map Fin [60; 45; 45] |}
                      responsive_templates = Ok self /\
    Advanced.__call__ self (map Fin [100; 50; 1; 0; 0; 0; 2; 0]) =
    Ok (Fin (poisson_spec 3
               (expected_spec [100; 50]
                  (adjusted_fractions [1; 0; 0; 0; 2; 0]))
               [60; 45; 45]
             + gauss_spec [1; 0; 0; 0; 2; 0]
                          (Scipy.assemble [identity3; identity3]))).
Proof.
  destruct (@advanced_call_formula responsive_templates
              [identity3; identity3]
              (adjusted_fractions [1; 0; 0; 0; 2; 0])
              [60; 45; 45] [100; 50; 1; 0; 0; 0; 2; 0])
    as (self & Hi & _ & _ & Hfin); try reflexivity.
  - apply Forall_cons; [exact identity3_shape|].
    apply Forall_cons; [exact identity3_shape|apply Forall_nil].
  - simpl. lia.
  - repeat constructor.
  - exists self. split; [exact Hi|]. apply Hfin. exact adjusted_covered.
Defined.

(* ================================================================== *)
(** * The sign of the Gaussian term *)




(* ================================================================== *)
(** * Construction without checks *)

Lemma total_rows_cons (m : Np.ndarray2 R) (ms : list (Np.ndarray2 R)) :
  Scipy.total_rows (m :: ms) = (Np.nrows m + Scipy.total_rows ms)%nat.
Proof. reflexivity. Qed.

Lemma total_cols_cons (m : Np.ndarray2 R) (ms : list (Np.ndarray2 R)) :
  Scipy.total_cols (m :: ms) = (Np.ncols m + Scipy.total_cols ms)%nat.
Proof. reflexivity. Qed.

(** The rows [block_diag] writes for blocks of any shapes: row [i] of
    block [t] sits after the rows of the blocks before it, and holds the
    block's row in the columns after theirs, zero elsewhere. *)
Lemma place_blocks_entry_any (ms : list (Np.ndarray2 R)) :
  Forall (fun m => Np.wf2 m) ms ->
  forall c w t i j,
    (t < length ms)%nat ->
    (i < Np.nrows (nth t ms empty_matrix))%nat ->
    nth j (nth (Scipy.total_rows (firstn t ms) + i)
               (Scipy.place_blocks c w ms) []) 0 =
    if ((c + Scipy.total_cols (firstn t ms) <=? j)
        && (j <? c + Scipy.total_cols (firstn t ms)
                 + Np.ncols (nth t ms empty_matrix)))%nat%bool
    then Np.entry (nth t ms empty_matrix) i
                  (j - (c + Scipy.total_cols (firstn t ms)))
    else 0.
Proof.
  induction 1 as [|m ms Hwf Hrest IH]; intros c w t i j Ht Hi.
  - simpl in Ht. lia.
  - cbn [Scipy.place_blocks]. destruct t as [|t].
    + cbn [firstn nth] in *.
      change (Scipy.total_rows []) with 0%nat.
      change (Scipy.total_cols []) with 0%nat.
      rewrite Nat.add_0_l, Nat.add_0_r.
      rewrite app_nth1 by (rewrite length_map; destruct Hwf; lia).
      rewrite nth_map_in_range with (d := []) by (destruct Hwf; lia).
      rewrite padded_row_nth with (b := Np.ncols m)
        by (apply row_length; assumption).
      reflexivity.
    + cbn [firstn nth length] in *.
      rewrite total_rows_cons, total_cols_cons.
      rewrite app_nth2 by (rewrite length_map; destruct Hwf; lia).
      rewrite length_map.
      replace (Np.nrows m + Scipy.total_rows (firstn t ms) + i
               - length (Np.rows m))%nat
        with (Scipy.total_rows (firstn t ms) + i)%nat
        by (destruct Hwf; lia).
      rewrite IH by (assumption || lia).
      replace (c + Np.ncols m + Scipy.total_cols (firstn t ms))%nat
        with (c + (Np.ncols m + Scipy.total_cols (firstn t ms)))%nat by lia.
      reflexivity.
Qed.

(** C7, amended.  Construction checks nothing about [inv_corr_mats]: on
    any sequence of 2-D matrices it succeeds.  On a non-empty sequence,
    whatever the number and the shapes of the matrices, the cache is the
    block matrix scipy assembles: as many rows and columns as the
    matrices have together, each matrix in order at the running row and
    column offsets, zero elsewhere.  On the empty sequence the cache has
    one row and no column.  A wrong shape shows at evaluation only: the
    call raises when the cache is not square of the size of the nuisance
    part of the input. *)
Theorem construction_unchecked (hdata : Histogram R) (T : CompositeTemplate R)
  (ms : list (Np.ndarray2 R)) :
  inv_corr_mats T = map Np.Arr2 ms ->
  exists self,
    Advanced.__init__ hdata T = Ok self /\
    let B := Advanced._block_diag_inv_corr_mats self in
    (ms = [] -> B = {| Np.nrows := 1; Np.ncols := 0; Np.rows := [[]] |}) /\
    (ms <> [] ->
       Np.nrows B = Scipy.total_rows ms /\
       Np.ncols B = Scipy.total_cols ms /\
       (Forall (fun m => Np.wf2 m) ms ->
        Np.wf2 B /\
        forall t i j,
          (t < length ms)%nat ->
          (i < Np.nrows (nth t ms empty_matrix))%nat ->
          Np.entry B (Scipy.total_rows (firstn t ms) + i) j =
          if ((Scipy.total_cols (firstn t ms) <=? j)
              && (j <? Scipy.total_cols (firstn t ms)
                       + Np.ncols (nth t ms empty_matrix)))%nat%bool
          then Np.entry (nth t ms empty_matrix) i
                        (j - Scipy.total_cols (firstn t ms))
          else 0)) /\
    (forall x,
       let m := length (skipn (num_templates T) x) in
       Np.nrows B <> m \/ Np.ncols B <> m ->
       raises (Advanced.__call__ self x)).
Proof.
  intros Hm.
  assert (Hinit : exists self, Advanced.__init__ hdata T = Ok self /\
            (ms = [] ->
             Advanced._block_diag_inv_corr_mats self =
             {| Np.nrows := 1; Np.ncols := 0; Np.rows := [[]] |}) /\
            (ms <> [] ->
             Advanced._block_diag_inv_corr_mats self = Scipy.assemble ms)).
  { destruct ms as [|m0 ms].
    - unfold Advanced.__init__. cbn [Base.__init__ Base._templates].
      rewrite Hm. cbn [map]. rewrite block_diag_nothing. cbn [bind].
      eexists. split; [reflexivity|]. split; [reflexivity|]. congruence.
    - eexists. split; [apply advanced_init_matrices; [exact Hm|discriminate]|].
      split; [discriminate|reflexivity]. }
  destruct Hinit as (self & Hi & Hempty & Hc). exists self.
  split; [exact Hi|]. cbv zeta.
  split; [exact Hempty|]. split.
  - intros Hne. rewrite (Hc Hne).
    split; [reflexivity|]. split; [reflexivity|].
    intros Hwf. split; [apply block_diag_wf, Hwf|].
    intros t i j Ht Hrow. unfold Np.entry, Scipy.assemble. cbn [Np.rows].
    cbn [s_zero R_scalar].
    rewrite (place_blocks_entry_any Hwf) by assumption.
    rewrite !Nat.add_0_l. reflexivity.
  - intros x Hshape. unfold Advanced.__call__.
    apply raises_bind_each. intros p _.
    apply raises_bind. exists ValueError. apply gauss_term_raises.
    rewrite (advanced_init_base _ _ Hi). cbn [Base.__init__ Base._templates].
    exact Hshape.
Qed.

(** The 1-by-2 matrix is cached as it is, and a call then raises. *)
Lemma construction_unchecked_witness :
  exists self,
    Advanced.__init__ (example_data 60 45 45) misshapen_templates = Ok self /\
    Np.nrows (Advanced._block_diag_inv_corr_mats self) = 1%nat /\
    Np.ncols (Advanced._block_diag_inv_corr_mats self) = 2%nat /\
    Np.entry (Advanced._block_diag_inv_corr_mats self) 0 1 = 2 /\
    raises (Advanced.__call__ self [100; 50; 0; 0; 0; 0; 0; 0]).
Proof.
  destruct (@construction_unchecked (example_data 60 45 45) misshapen_templates
              [{| Np.nrows := 1; Np.ncols := 2; Np.rows := [[1; 2]] |}]
              eq_refl) as (self & Hi & _ & Hshape & Hcall).
  destruct Hshape as (Hr & Hc & Hentries); [discriminate|].
  destruct Hentries as [_ Hentry]; [repeat constructor|].
  exists self. split; [exact Hi|]. split; [exact Hr|]. split; [exact Hc|].
  split.
  - apply (Hentry 0%nat 0%nat 1%nat); simpl; lia.
  - apply Hcall. left. rewrite Hr. simpl. lia.
Defined.

(* ================================================================== *)
(** * Data and templates with different numbers of bins: the calls *)

Lemma zip_with_map_same {A B : Type} (f : A -> A -> A) (g h : B -> A)
  (l : list B) :
  Np.zip_with f (map g l) (map h l) = map (fun a => f (g a) (h a)) l.
Proof. induction l as [|a l IH]; simpl; [|rewrite IH]; reflexivity. Qed.

(** X2.  Neither cost function compares the number of bins of the data
    with that of the fractions.  When the two differ and neither is 1,
    the call raises numpy's [ValueError]; when the data has a single bin
    count, numpy stretches it over all bins and the simple call returns
    the Poisson sum, in numpy's arithmetic, with that one count in every
    bin: a finite value when every expected yield is positive. *)
Theorem bin_count_mismatch :
  (forall (hdata : Histogram R) (T : CompositeTemplate R) (F : Np.ndarray2 R) x,
     let m := length (bin_counts hdata) in
     bin_fractions T None = Ok F -> length x = Np.nrows F ->
     m <> Np.ncols F -> m <> 1%nat -> Np.ncols F <> 1%nat ->
     Simple.__call__ (Simple.__init__ hdata T) x = Raise ValueError) /\
  (forall (hdata : Histogram R) (T : CompositeTemplate R) (F : Np.ndarray2 R)
          self x,
     let m := length (bin_counts hdata) in
     Advanced.__init__ hdata T = Ok self ->
     bin_fractions T (Some (skipn (num_templates T) x)) = Ok F ->
     length (firstn (num_templates T) x) = Np.nrows F ->
     m <> Np.ncols F -> m <> 1%nat -> Np.ncols F <> 1%nat ->
     Advanced.__call__ self x = Raise ValueError) /\
  (forall (T : CompositeTemplate npfloat) (F : Np.ndarray2 R) (x : list R)
          (o : R),
     bin_fractions T None = Ok (fin_matrix F) ->
     Np.wf2 F -> length x = Np.nrows F -> Np.ncols F <> 1%nat ->
     Simple.__call__ (Simple.__init__ {| bin_counts := [Fin o] |} T) (map Fin x)
     = Ok (Np.sum (map (fun i => poisson_bin_term (expected_spec x F i) o)
                       (seq 0 (Np.ncols F)))) /\
     ((forall i, (i < Np.ncols F)%nat -> 0 < expected_spec x F i) ->
      Simple.__call__ (Simple.__init__ {| bin_counts := [Fin o] |} T) (map Fin x)
      = Ok (Fin (big_sum (Np.ncols F) (fun i =>
                   expected_spec x F i - o * ln (expected_spec x F i)))))).
Proof.
  split; [|split].
  - intros hdata T F x m HF Hx Hm Hm1 Hb1.
    unfold Simple.__call__, Simple.__init__, Base.__init__.
    cbn [Base._templates]. rewrite HF. cbn [bind].
    destruct (Np.vecmat x F) as [e|err] eqn:He.
    + cbn [bind]. rewrite poisson_sum_mismatch; [reflexivity| | |];
        cbn [Base._data]; rewrite ?(vecmat_length _ _ He); assumption.
    + exfalso. unfold Np.vecmat in He.
      rewrite (proj2 (Nat.eqb_eq _ _) Hx) in He. discriminate.
  - intros hdata T F self x m Hi HF Hx Hm Hm1 Hb1.
    unfold Advanced.__call__, Advanced.poisson_term.
    rewrite (advanced_init_base _ _ Hi). cbn [Base.__init__ Base._templates].
    rewrite HF. cbn [bind].
    destruct (Np.vecmat (firstn (num_templates T) x) F) as [e|err] eqn:He.
    + cbn [bind]. rewrite poisson_sum_mismatch; [reflexivity| | |];
        cbn [Base._data]; rewrite ?(vecmat_length _ _ He); assumption.
    + exfalso. unfold Np.vecmat in He.
      rewrite (proj2 (Nat.eqb_eq _ _) Hx) in He. discriminate.
  - intros T F x o HF Hwf Hx Hb1.
    assert (Hcall :
      Simple.__call__ (Simple.__init__ {| bin_counts := [Fin o] |} T) (map Fin x)
      = Ok (Np.sum (map (fun i => poisson_bin_term (expected_spec x F i) o)
                        (seq 0 (Np.ncols F))))).
    { unfold Simple.__call__, Simple.__init__, Base.__init__.
      cbn [Base._templates]. rewrite HF. cbn [bind].
      rewrite fin_vecmat by assumption. cbn [bind].
      unfold Base.poisson_sum, Np.log. cbn [Base._data bin_counts].
      rewrite broadcast_stretch_left by lengths. cbn [bind].
      rewrite broadcast_same by lengths. cbn [bind]. do 2 f_equal.
      rewrite !map_map, zip_with_map_same. reflexivity. }
    split; [exact Hcall|].
    intros Hpos. rewrite Hcall. f_equal.
    rewrite map_ext_in with
      (g := fun i => Fin ((fun i => expected_spec x F i
                                    - o * ln (expected_spec x F i)) i)).
    + rewrite <- map_map with (g := Fin), fin_sum. f_equal.
      rewrite np_sum_big_sum, length_map, length_seq.
      apply big_sum_ext. intros i Hi. apply map_seq_nth. exact Hi.
    + intros i Hi. apply in_seq in Hi. apply bin_term_covered, Hpos. lia.
Qed.

(** The worked configuration against data with two, and with one, bin
    counts. *)
Lemma bin_count_mismatch_witness :
  Simple.__call__ (Simple.__init__ {| bin_counts := [60; 45] |} example_templates)
                  [100; 50] = Raise ValueError /\
  Simple.__call__ (Simple.__init__ {| bin_counts := [Fin 7] |}
                                   float_example_templates)
                  (map Fin [100; 50]) =
  Ok (Fin (big_sum 3 (fun i =>
        expected_spec [100; 50] example_fractions i
        - 7 * ln (expected_spec [100; 50] example_fractions i)))).
Proof.
  split.
  - apply (proj1 bin_count_mismatch {| bin_counts := [60; 45] |}
                 example_templates example_fractions);
      try reflexivity; simpl; lia.
  - destruct (proj2 (proj2 bin_count_mismatch) float_example_templates
                    example_fractions [100; 50] 7) as [_ Hfin];
      try reflexivity.
    + repeat constructor.
    + simpl. lia.
    + apply Hfin. exact example_covered.
Defined.

(* ================================================================== *)
(** * Evaluation at the start vector: the calls *)

Lemma advanced_init_base_float (hdata : Histogram npfloat)
  (T : CompositeTemplate npfloat) (self : Advanced.t npfloat) :
  Advanced.__init__ hdata T = Ok self ->
  Advanced.base self = Base.__init__ hdata T.
Proof.
  unfold Advanced.__init__. cbn [Base.__init__ Base._templates].
  destruct (Scipy.block_diag (inv_corr_mats T)) as [B|e]; cbn [bind];
    intros E; inversion E. reflexivity.
Qed.

(** X3.  The start vector and the evaluation agree on the layout: for a
    collection with the sizes of the data model, the split made by
    [__call__] undoes the concatenation made by [x0], so that at [x0]
    the advanced cost function asks [bin_fractions] for the fractions at
    [nuiss_param_values] and returns, in numpy's arithmetic, the Poisson
    sum at [yield_values] plus the Gaussian term at
    [nuiss_param_values]; the simple cost function at its [x0] returns
    the Poisson sum at [yield_values].  Both values are finite when
    every expected yield is positive. *)
Theorem evaluation_at_x0 (T : CompositeTemplate npfloat)
  (ms : list (Np.ndarray2 R)) (obs ys th : list R) :
  let n := num_templates T in
  let b := num_bins T in
  let hdata := {| bin_counts := map Fin obs |} in
  yields T = Some (map Fin ys) -> nuiss_param_values T = map Fin th ->
  length ys = n -> length th = (n * b)%nat ->
  inv_corr_mats T = map Np.Arr2 (map fin_matrix ms) ->
  Forall (fun m => Np.wf2 m /\ Np.nrows m = b /\ Np.ncols m = b) ms ->
  length ms = n -> (0 < n)%nat -> length obs = b ->
  (forall F0,
     bin_fractions T None = Ok (fin_matrix F0) ->
     Np.wf2 F0 -> Np.nrows F0 = n -> Np.ncols F0 = b ->
     exists v,
       Simple.x0 (Simple.__init__ hdata T) = Ok v /\
       Simple.__call__ (Simple.__init__ hdata T) v =
       Ok (Np.sum (bin_terms (expected_spec ys F0) obs b)) /\
       ((forall i, (i < b)%nat -> 0 < expected_spec ys F0 i) ->
        Simple.__call__ (Simple.__init__ hdata T) v =
        Ok (Fin (poisson_spec b (expected_spec ys F0) obs)))) /\
  (forall F,
     bin_fractions T (Some (nuiss_param_values T)) = Ok (fin_matrix F) ->
     Np.wf2 F -> Np.nrows F = n -> Np.ncols F = b ->
     exists self v,
       Advanced.__init__ hdata T = Ok self /\
       Advanced.x0 self = Ok v /\
       firstn n v = map Fin ys /\
       skipn n v = nuiss_param_values T /\
       Advanced.__call__ self v =
       Ok (np_add (Np.sum (bin_terms (expected_spec ys F) obs b))
                  (Fin (gauss_spec th (Scipy.assemble ms)))) /\
       ((forall i, (i < b)%nat -> 0 < expected_spec ys F i) ->
        Advanced.__call__ self v =
        Ok (Fin (poisson_spec b (expected_spec ys F) obs
                 + gauss_spec th (Scipy.assemble ms))))).
Proof.
  intros n b hdata Hy Hnu Hly Hlt Hm Hu Hl Hn Ho. split.
  - intros F0 HF0 Hwf Hr Hc. exists (map Fin ys).
    assert (Hcall :
      Simple.__call__ (Simple.__init__ hdata T) (map Fin ys) =
      Ok (Np.sum (bin_terms (expected_spec ys F0) obs b))).
    { unfold hdata. rewrite (@fin_simple_call T F0 obs ys HF0 Hwf) by lia.
      rewrite Ho. reflexivity. }
    split; [|split; [exact Hcall|]].
    + unfold Simple.x0, Base.x0, yield_values. simpl. rewrite Hy. reflexivity.
    + intros Hpos. rewrite Hcall, bin_terms_covered by exact Hpos.
      reflexivity.
  - intros F HF Hwf Hr Hc.
    assert (Hfirst : firstn n (ys ++ th) = ys) by (apply firstn_exact; exact Hly).
    assert (Hskip : skipn n (ys ++ th) = th) by (apply skipn_exact; exact Hly).
    assert (HF' : bin_fractions T (Some (map Fin (skipn n (ys ++ th))))
                  = Ok (fin_matrix F))
      by (rewrite Hskip, <- Hnu; exact HF).
    assert (Hx : length (ys ++ th) = (n + n * b)%nat)
      by (rewrite length_app; lia).
    destruct (@fin_advanced_call T ms F obs (ys ++ th)
                Hm Hu Hl Hn Hx Ho HF' Hwf Hr Hc) as (self & Hi & Hcall).
    fold n b in Hcall. rewrite Hfirst, Hskip in Hcall.
    exists self, (map Fin (ys ++ th)).
    split; [exact Hi|]. split; [|split; [|split; [|split; [exact Hcall|]]]].
    + unfold Advanced.x0, yield_values.
      rewrite (@advanced_init_base_float _ _ _ Hi). simpl.
      rewrite Hy, Hnu, map_app. reflexivity.
    + rewrite firstn_map, Hfirst. reflexivity.
    + rewrite skipn_map, Hskip, Hnu. reflexivity.
    + intros Hpos. rewrite Hcall, bin_terms_covered by exact Hpos.
      reflexivity.
Qed.

(** The configuration whose fractions follow the nuisance parameters, at
    its start vectors. *)
Lemma evaluation_at_x0_witness :
  exists self v,
    Advanced.__init__ {| bin_counts := map Fin [60; 45; 45] |}
                      responsive_templates = Ok self /\
    Advanced.x0 self = Ok v /\
    firstn 2 v = map Fin [100; 50] /\
    skipn 2 v = map Fin [1; 0; 0; 0; 2; 0] /\
    Advanced.__call__ self v =
    Ok (Fin (poisson_spec 3
               (expected_spec [100; 50]
                  (adjusted_fractions [1; 0; 0; 0; 2; 0]))
               [60; 45; 45]
             + gauss_spec [1; 0; 0; 0; 2; 0]
                          (Scipy.assemble [identity3; identity3]))).
Proof.
  destruct (@evaluation_at_x0 responsive_templates [identity3; identity3]
              [60; 45; 45] [100; 50] [1; 0; 0; 0; 2; 0])
    as [_ Ha]; try reflexivity.
  - apply Forall_cons; [exact identity3_shape|].
    apply Forall_cons; [exact identity3_shape|apply Forall_nil].
  - simpl. lia.
  - destruct (Ha (adjusted_fractions [1; 0; 0; 0; 2; 0]))
      as (self & v & Hi & Hv & Hf & Hs & _ & Hfin); try reflexivity.
    + repeat constructor.
    + exists self, v. split; [exact Hi|]. split; [exact Hv|].
      split; [exact Hf|]. split; [exact Hs|].
      apply Hfin. exact adjusted_covered.
Defined.
